(** * Live session manager (App component): model and verified properties

    A shallow embedding of the React component that owns the live voice
    session: its state cells and refs, the browser objects it drives
    (transport sessions, audio graph nodes, buffer sources, media streams,
    timers) and every callback it registers.  Asynchronous functions are cut
    at their [await]s; the environment resumes them through events.

    Conventions
    - JavaScript strings are sequences of UTF-16 code units ([jsstring]).
    - JavaScript numbers that the component computes with (the output
      clock, buffer durations, next-start-time, microphone samples) are IEEE
      754 binary64 values, the kernel's primitive floats, with the
      operations of the source; a number inside a parsed JSON text is kept
      as the rational its digits denote.
    - Object identity is an allocation index; the objects themselves live in
      finite maps and sets of the [State].
    - A callback reads [status] and [config] from the render that created it
      ([Render]); a control of the page is handled with the latest render,
      the key handler with the render of the last status change.

    Outside the model
    - [createBlob], [decode] and [decodeAudioData] come from utils/audio-utils:
      a frame's blob is symbolic and a decode result is given by its event.
    - A message that has a model turn has its [parts], a tool call has its
      [functionCalls], and [args.enabled] is a boolean.
    - [flipCamera] has no caller and the facing mode only selects the device;
      the microphone stream of [startSession] is never released by the
      component and is not tracked; the Visualizer and the markup are
      presentation. *)

From Stdlib Require Import Floats QArith Qabs String Ascii.
From stdpp Require Import gmap list.

#[local] Set Warnings "-clear-no-such-hyp".
#[local] Set Warnings "-inexact-float".

Local Open Scope N_scope.

(** ** JavaScript strings *)

Module Js.

Definition jsstring := list N.

(** The code units of an 8-bit literal. *)
Definition js (s : string) : jsstring :=
  map N_of_ascii (list_ascii_of_string s).

(** Literals that contain double quotes are written with apostrophes. *)
Definition jsq (s : string) : jsstring :=
  map (fun c => if c =? 39 then 34 else c) (js s).

Definition code_eqb (a b : jsstring) : bool :=
  bool_decide (a = b).

Fixpoint dropWhile {A} (p : A -> bool) (l : list A) : list A :=
  match l with
  | [] => []
  | x :: l' => if p x then dropWhile p l' else l
  end.

Fixpoint span {A} (p : A -> bool) (l : list A) : list A * list A :=
  match l with
  | [] => ([], [])
  | x :: l' =>
      if p x then let '(a, b) := span p l' in (x :: a, b) else ([], l)
  end.

(** WhiteSpace and LineTerminator code units, the ones [String.prototype.trim]
    strips. *)
Definition isWhiteSpace (c : N) : bool :=
  existsb (N.eqb c)
    [9; 10; 11; 12; 13; 32; 160; 5760; 8192; 8193; 8194; 8195; 8196; 8197;
     8198; 8199; 8200; 8201; 8202; 8232; 8233; 8239; 8287; 12288; 65279].

Definition trim (s : jsstring) : jsstring :=
  rev (dropWhile isWhiteSpace (rev (dropWhile isWhiteSpace s))).

Fixpoint startsWith (s p : jsstring) : bool :=
  match p, s with
  | [], _ => true
  | _ :: _, [] => false
  | a :: p', b :: s' => (a =? b) && startsWith s' p'
  end.

Fixpoint includes (s p : jsstring) : bool :=
  startsWith s p ||
  match s with
  | [] => false
  | _ :: s' => includes s' p
  end.

(** [toLowerCase] on the letters A to Z.  No other code unit lower-cases to
    an ASCII letter that occurs in the shortcuts compared against. *)
Definition toLowerCase (s : jsstring) : jsstring :=
  map (fun c => if (65 <=? c) && (c <=? 90) then c + 32 else c) s.

(** [text.match(/\{[\s\S]*\}/)]: the span from the first opening brace to the
    last closing brace after it, or no match. *)
Definition matchBraceSpan (text : jsstring) : option jsstring :=
  match dropWhile (fun c => negb (c =? 123)) text with
  | [] => None
  | open :: body =>
      match dropWhile (fun c => negb (c =? 125)) (rev body) with
      | [] => None
      | kept => Some (open :: rev kept)
      end
  end.

End Js.
Export Js.

(** ** Abrupt completion *)

Inductive JsError := SyntaxError | TypeError.

Inductive completion (A : Type) :=
| Normal (a : A)
| Throw (e : JsError).
Arguments Normal {A} a.
Arguments Throw {A} e.

Definition cbind {A B} (c : completion A) (k : A -> completion B) : completion B :=
  match c with
  | Normal a => k a
  | Throw e => Throw e
  end.

(** [try { body } catch (e) { handler }] *)
Definition tryCatch {A} (body : completion A) (handler : JsError -> completion A) :
  completion A :=
  match body with
  | Normal a => Normal a
  | Throw e => handler e
  end.

(** ** JSON.parse *)

Module Json.

#[local] Set Warnings "-register-all".

Inductive json :=
| JNull
| JBool (b : bool)
| JNumber (q : Q)
| JString (s : jsstring)
| JArray (elems : list json)
| JObject (members : list (jsstring * json)).

Inductive token :=
| TLBrace | TRBrace | TLBracket | TRBracket | TColon | TComma
| TString (s : jsstring)
| TNumber (q : Q)
| TTrue | TFalse | TNull.

Definition isDigit (c : N) : bool := (48 <=? c) && (c <=? 57).
Definition isLower (c : N) : bool := (97 <=? c) && (c <=? 122).
Definition isJsonSpace (c : N) : bool :=
  (c =? 9) || (c =? 10) || (c =? 13) || (c =? 32).
Definition isNumberChar (c : N) : bool :=
  isDigit c || (c =? 45) || (c =? 43) || (c =? 46) || (c =? 101) || (c =? 69).

Definition hexValue (c : N) : option N :=
  if isDigit c then Some (c - 48)
  else if (97 <=? c) && (c <=? 102) then Some (c - 87)
  else if (65 <=? c) && (c <=? 70) then Some (c - 55)
  else None.

Definition digitsValue (ds : list N) : N :=
  fold_left (fun a d => 10 * a + (d - 48)) ds 0.

(** The value of a number lexeme (an optional minus sign, an integer part
    without a leading zero unless it is the single digit zero, an optional
    fraction, an optional exponent), as the exact rational it denotes. *)
Definition numberOfLexeme (cs : jsstring) : option Q :=
  let '(neg, cs1) :=
    match cs with
    | 45 :: r => (true, r)
    | _ => (false, cs)
    end in
  let '(ip, cs2) := span isDigit cs1 in
  match ip with
  | [] => None
  | d :: more =>
      if (d =? 48) && negb (length more =? 0)%nat then None
      else
        let frac :=
          match cs2 with
          | 46 :: r =>
              let '(fp, r') := span isDigit r in
              match fp with [] => None | _ => Some (fp, r') end
          | _ => Some ([], cs2)
          end in
        match frac with
        | None => None
        | Some (fp, cs3) =>
            let expo :=
              match cs3 with
              | [] => Some 0%Z
              | e :: r =>
                  if (e =? 101) || (e =? 69) then
                    let '(eneg, r1) :=
                      match r with
                      | 45 :: r' => (true, r')
                      | 43 :: r' => (false, r')
                      | _ => (false, r)
                      end in
                    let '(ed, rest) := span isDigit r1 in
                    match ed, rest with
                    | _ :: _, [] =>
                        let v := Z.of_N (digitsValue ed) in
                        Some (if eneg then (- v)%Z else v)
                    | _, _ => None
                    end
                  else None
              end in
            match expo with
            | None => None
            | Some ex =>
                let mant := Z.of_N (digitsValue (ip ++ fp)) in
                let mant := if neg then (- mant)%Z else mant in
                let scale := (ex - Z.of_nat (length fp))%Z in
                Some (if (0 <=? scale)%Z
                      then Qmake (mant * 10 ^ scale)%Z 1
                      else Qmake mant (Pos.pow 10 (Z.to_pos (- scale))))
            end
        end
  end.

Definition wordToken (w : jsstring) : option token :=
  if code_eqb w (js "true") then Some TTrue
  else if code_eqb w (js "false") then Some TFalse
  else if code_eqb w (js "null") then Some TNull
  else None.

(** The lexer reads one code unit at a time. *)
Inductive lexmode :=
| LTop
| LString (acc : jsstring)
| LEscape (acc : jsstring)
| LUnicode (acc : jsstring) (hex : list N)
| LNumber (acc : jsstring)
| LWord (acc : jsstring).

Definition lexTop (c : N) (toks : list token) : option (lexmode * list token) :=
  if isJsonSpace c then Some (LTop, toks)
  else if c =? 123 then Some (LTop, TLBrace :: toks)
  else if c =? 125 then Some (LTop, TRBrace :: toks)
  else if c =? 91 then Some (LTop, TLBracket :: toks)
  else if c =? 93 then Some (LTop, TRBracket :: toks)
  else if c =? 58 then Some (LTop, TColon :: toks)
  else if c =? 44 then Some (LTop, TComma :: toks)
  else if c =? 34 then Some (LString [], toks)
  else if isDigit c || (c =? 45) then Some (LNumber [c], toks)
  else if isLower c then Some (LWord [c], toks)
  else None.

Definition lexStep (st : lexmode * list token) (c : N) : option (lexmode * list token) :=
  let '(mode, toks) := st in
  match mode with
  | LTop => lexTop c toks
  | LString acc =>
      if c =? 34 then Some (LTop, TString (rev acc) :: toks)
      else if c =? 92 then Some (LEscape acc, toks)
      else if c <? 32 then None
      else Some (LString (c :: acc), toks)
  | LEscape acc =>
      if (c =? 34) || (c =? 92) || (c =? 47) then Some (LString (c :: acc), toks)
      else if c =? 98 then Some (LString (8 :: acc), toks)
      else if c =? 102 then Some (LString (12 :: acc), toks)
      else if c =? 110 then Some (LString (10 :: acc), toks)
      else if c =? 114 then Some (LString (13 :: acc), toks)
      else if c =? 116 then Some (LString (9 :: acc), toks)
      else if c =? 117 then Some (LUnicode acc [], toks)
      else None
  | LUnicode acc hex =>
      match hexValue c with
      | None => None
      | Some v =>
          let hex' := hex ++ [v] in
          if (length hex' =? 4)%nat
          then Some (LString (fold_left (fun a d => 16 * a + d) hex' 0 :: acc), toks)
          else Some (LUnicode acc hex', toks)
      end
  | LNumber acc =>
      if isNumberChar c then Some (LNumber (c :: acc), toks)
      else
        match numberOfLexeme (rev acc) with
        | Some q => lexTop c (TNumber q :: toks)
        | None => None
        end
  | LWord acc =>
      if isLower c then Some (LWord (c :: acc), toks)
      else
        match wordToken (rev acc) with
        | Some t => lexTop c (t :: toks)
        | None => None
        end
  end.

Fixpoint lexFrom (st : lexmode * list token) (cs : jsstring) : option (lexmode * list token) :=
  match cs with
  | [] => Some st
  | c :: cs' =>
      match lexStep st c with
      | Some st' => lexFrom st' cs'
      | None => None
      end
  end.

Definition lex (cs : jsstring) : option (list token) :=
  match lexFrom (LTop, []) cs with
  | Some (LTop, toks) => Some (rev toks)
  | Some (LNumber acc, toks) =>
      match numberOfLexeme (rev acc) with
      | Some q => Some (rev (TNumber q :: toks))
      | None => None
      end
  | Some (LWord acc, toks) =>
      match wordToken (rev acc) with
      | Some t => Some (rev (t :: toks))
      | None => None
      end
  | _ => None
  end.

(** The parser keeps the containers under construction on a stack. *)
Inductive frame :=
| FArray (elems : list json)
| FObject (members : list (jsstring * json))
| FMember (members : list (jsstring * json)) (key : jsstring).

Inductive expect :=
| XValue
| XValueOrEnd
| XKeyOrEnd
| XKey
| XColon (key : jsstring)
| XSep
| XDone (v : json).

Definition deliver (v : json) (stk : list frame) : option (expect * list frame) :=
  match stk with
  | [] => Some (XDone v, [])
  | FArray es :: r => Some (XSep, FArray (v :: es) :: r)
  | FMember ms k :: r => Some (XSep, FObject ((k, v) :: ms) :: r)
  | FObject _ :: _ => None
  end.

Definition startValue (t : token) (stk : list frame) : option (expect * list frame) :=
  match t with
  | TLBrace => Some (XKeyOrEnd, FObject [] :: stk)
  | TLBracket => Some (XValueOrEnd, FArray [] :: stk)
  | TString s => deliver (JString s) stk
  | TNumber q => deliver (JNumber q) stk
  | TTrue => deliver (JBool true) stk
  | TFalse => deliver (JBool false) stk
  | TNull => deliver JNull stk
  | _ => None
  end.

Definition closeArray (stk : list frame) : option (expect * list frame) :=
  match stk with
  | FArray es :: r => deliver (JArray (rev es)) r
  | _ => None
  end.

Definition closeObject (stk : list frame) : option (expect * list frame) :=
  match stk with
  | FObject ms :: r => deliver (JObject (rev ms)) r
  | _ => None
  end.

Definition parseStep (st : expect * list frame) (t : token) : option (expect * list frame) :=
  let '(x, stk) := st in
  match x, t with
  | XValue, _ => startValue t stk
  | XValueOrEnd, TRBracket => closeArray stk
  | XValueOrEnd, _ => startValue t stk
  | XKeyOrEnd, TRBrace => closeObject stk
  | XKeyOrEnd, TString k => Some (XColon k, stk)
  | XKey, TString k => Some (XColon k, stk)
  | XColon k, TColon =>
      match stk with
      | FObject ms :: r => Some (XValue, FMember ms k :: r)
      | _ => None
      end
  | XSep, TComma =>
      match stk with
      | FArray _ :: _ => Some (XValue, stk)
      | FObject _ :: _ => Some (XKey, stk)
      | _ => None
      end
  | XSep, TRBracket => closeArray stk
  | XSep, TRBrace => closeObject stk
  | _, _ => None
  end.

Fixpoint parseFrom (st : expect * list frame) (ts : list token) : option json :=
  match ts with
  | [] =>
      match st with
      | (XDone v, []) => Some v
      | _ => None
      end
  | t :: ts' =>
      match parseStep st t with
      | Some st' => parseFrom st' ts'
      | None => None
      end
  end.

(** [JSON.parse(text)]: the value, or a thrown SyntaxError. *)
Definition JSON_parse (text : jsstring) : completion json :=
  match lex text with
  | Some ts =>
      match parseFrom (XValue, []) ts with
      | Some v => Normal v
      | None => Throw SyntaxError
      end
  | None => Throw SyntaxError
  end.

(** Property read [o.k]: the last member named [k] wins, a missing member
    reads as undefined. *)
Definition getMember (k : jsstring) (v : json) : option json :=
  match v with
  | JObject ms => snd <$> last (filter (fun m => fst m = k) ms)
  | _ => None
  end.

(** ToBoolean.  A number is falsy exactly when it rounds to zero as a double,
    that is when its magnitude is at most 2^-1075. *)
Definition truthy (v : json) : bool :=
  match v with
  | JNull => false
  | JBool b => b
  | JNumber q => (Zpos (Qden q) <? Z.abs (Qnum q) * 2 ^ 1075)%Z
  | JString s => negb (length s =? 0)%nat
  | JArray _ => true
  | JObject _ => true
  end.

End Json.
Export Json.

(** ** Types of the component (types.ts) *)

Inductive SessionStatus := IDLE | CONNECTING | CONNECTED | ERROR.

Inductive VoiceName := Puck | Charon | Kore | Fenrir | Zephyr.

Record LiveConfig := {
  model : jsstring;
  systemInstruction : option jsstring;
  voiceName : VoiceName;
  isCameraEnabled : bool;
  isScreenSharing : bool;
  isMuted : bool;
  isMouseMode : bool;
}.

#[global] Instance SessionStatus_eq_dec : EqDecision SessionStatus.
Proof. solve_decision. Defined.

Definition MODEL_NAME : jsstring :=
  js "gemini-2.5-flash-native-audio-preview-12-2025".

Definition MOUSE_SYSTEM_INSTRUCTION : jsstring :=
  js "You are an AI-powered Digital System Mouse Controller." ++ [10] ++
  js "Your role is to act like the brain of a virtual mouse that controls the OPERATING SYSTEM." ++ [10] ++
  js "Reply ONLY in valid JSON format for mouse actions.".

Definition NORMAL_SYSTEM_INSTRUCTION : jsstring :=
  js "You are a helpful, friendly assistant. " ++ [10] ++
  js "Talk naturally and help the user. Keep responses conversational and brief.".

(** ** Messages of the transport (the parts of LiveServerMessage the handler
    reads) *)

Record Part := {
  text : option jsstring;
  inlineData : option jsstring;   (* inlineData?.data *)
}.

Record ServerContent := {
  modelTurn : option (list Part);  (* modelTurn?.parts *)
  interrupted : bool;
}.

Record FunctionCall := {
  fc_id : jsstring;
  fc_name : jsstring;
  fc_enabled : bool;               (* args.enabled *)
}.

Record LiveServerMessage := {
  toolCall : option (list FunctionCall);   (* toolCall.functionCalls *)
  serverContent : option ServerContent;
}.

(** ** JavaScript numbers

    A Number is an IEEE 754 binary64 value; [+], [/], [>] and [Math.abs] are
    the primitive operations on [float]. *)

(** [Math.max] of two numbers: NaN if either is NaN, and +0 above -0. *)
Definition Math_max (a b : float) : float :=
  if PrimFloat.is_nan a || PrimFloat.is_nan b then PrimFloat.nan
  else if PrimFloat.ltb a b then b
  else if PrimFloat.ltb b a then a
  else if PrimFloat.get_sign a then b else a.

(** The Number of a length or a rate.  These are integers below 2^53, for
    which the conversion is exact. *)
Definition ofN (n : N) : float := PrimFloat.of_uint63 (Uint63.of_Z (Z.of_N n)).

(** The literal [0.01]. *)
Definition threshold : float := 0.01%float.

(** A decoded buffer; [AudioBuffer.duration] is its length over its rate. *)
Record AudioBuffer := {
  ab_length : N;
  ab_sampleRate : positive;
}.

Definition duration (b : AudioBuffer) : float :=
  (ofN (ab_length b) / ofN (Npos (ab_sampleRate b)))%float.

(** [createBlob] (utils/audio-utils) encodes a microphone frame; the
    encoding is kept symbolic. *)
Inductive Blob := createBlob (inputData : list float).

(** What the component hands to a session. *)
Inductive Outbound :=
| RealtimeAudio (media : Blob)                          (* sendRealtimeInput *)
| RealtimeImage (source : option nat)                   (* a still of the video element *)
| ToolResponse (id name : jsstring) (message : jsstring). (* sendToolResponse *)

(** ** Closures

    Every callback is created during some render and reads the [status] and
    [config] of that render, whatever the cells hold when it runs. *)

Record Render := {
  r_status : SessionStatus;
  r_config : LiveConfig;
}.

Inductive Transport := TOpening | TOpen | TClosed.

#[global] Instance Transport_eq_dec : EqDecision Transport.
Proof. solve_decision. Defined.

(** A session created by [ai.live.connect], with what its callbacks
    captured. *)
Record Session := {
  transport : Transport;
  captured : Render;
  withVisual : bool;
  sessionIsMouseMode : bool;
  sessionInstruction : option jsstring;
}.

Inductive TimerAction :=
| ExpireCommand                                   (* () => setLastCommand(null) *)
| Reconnect (r : Render) (visual : bool) (instruction : jsstring) (mouse : bool).

Record Timer := {
  due : N;                 (* milliseconds *)
  action : TimerAction;
}.

(** A source node handed to [start]. *)
Record Scheduled := {
  sc_source : nat;
  sc_start : float;
  sc_duration : float;
}.

Inductive MediaKind := Camera | Screen.

(** Suspended asynchronous calls. *)
Record StartTask := {
  st_render : Render;
  st_withVisual : bool;
  st_instructionOverride : option jsstring;
  st_isMouseModeOverride : option bool;
}.

Record DecodeTask := {
  dt_interrupted : bool;   (* message.serverContent?.interrupted *)
}.

Record MediaTask := {
  mt_kind : MediaKind;
  mt_sequence : nat;
  mt_render : Render;
}.

(** ** State *)

#[local] Set Primitive Projections.

(** The cells of [useState]. *)
Record View := {
  v_status : SessionStatus;
  v_config : LiveConfig;
  v_isUserTalking : bool;
  v_isModelTalking : bool;
  v_lastCommand : option json;
}.

(** The cells of [useRef], and the render whose key handler is installed. *)
Record Refs := {
  r_isMutedRef : bool;
  r_sessionRef : option nat;
  r_sessionPromiseRef : option nat;
  r_audioContextRef : bool;
  r_audioNodesRef : option (nat * nat);     (* source, processor *)
  r_nextStartTimeRef : float;
  r_audioSourcesRef : gset nat;
  r_videoSrcObject : option nat;            (* videoRef.current.srcObject *)
  r_frameIntervalRef : option nat;
  r_mediaRequestRef : nat;
  r_keydownRender : Render;
}.

(** The browser objects the component created or was given. *)
Record Browser := {
  b_now : N;                                (* timer clock, milliseconds *)
  b_fresh : nat;                            (* next object identity *)
  b_hasGetUserMedia : bool;
  b_transports : gmap nat Session;
  b_connectedNodes : gset nat;              (* nodes with outgoing connections *)
  b_processors : gmap nat nat;              (* processor node, its session *)
  b_started : list Scheduled;               (* calls of start, newest first *)
  b_stoppedSources : gset nat;
  b_stoppedStreams : gset nat;
  b_watchedStreams : gset nat;              (* streams with an onended handler *)
  b_intervals : gmap nat Render;
  b_timers : gmap nat Timer;
  b_outbox : list (nat * Outbound);         (* session, payload; newest first *)
}.

Record Tasks := {
  t_pendingStarts : gmap nat StartTask;     (* startSession before connect *)
  t_awaitingSession : gset nat;             (* startSession at await sessionPromise *)
  t_pendingDecodes : gmap nat DecodeTask;   (* onmessage at await decodeAudioData *)
  t_pendingMedia : gmap nat MediaTask;      (* toggleCamera / toggleScreenShare *)
}.

Record State := {
  view : View;
  refs : Refs;
  browser : Browser;
  tasks : Tasks;
}.

#[local] Unset Primitive Projections.

Local Close Scope N_scope.

(** Reading and writing one cell. *)

Definition status (s : State) : SessionStatus := v_status (view s).
Definition config (s : State) : LiveConfig := v_config (view s).
Definition isUserTalking (s : State) : bool := v_isUserTalking (view s).
Definition isModelTalking (s : State) : bool := v_isModelTalking (view s).
Definition lastCommand (s : State) : option json := v_lastCommand (view s).
Definition isMutedRef (s : State) : bool := r_isMutedRef (refs s).
Definition sessionRef (s : State) : option nat := r_sessionRef (refs s).
Definition sessionPromiseRef (s : State) : option nat := r_sessionPromiseRef (refs s).
Definition audioContextRef (s : State) : bool := r_audioContextRef (refs s).
Definition audioNodesRef (s : State) : option (nat * nat) := r_audioNodesRef (refs s).
Definition nextStartTimeRef (s : State) : float := r_nextStartTimeRef (refs s).
Definition audioSourcesRef (s : State) : gset nat := r_audioSourcesRef (refs s).
Definition videoSrcObject (s : State) : option nat := r_videoSrcObject (refs s).
Definition frameIntervalRef (s : State) : option nat := r_frameIntervalRef (refs s).
Definition mediaRequestRef (s : State) : nat := r_mediaRequestRef (refs s).
Definition keydownRender (s : State) : Render := r_keydownRender (refs s).
Definition now (s : State) : N := b_now (browser s).
Definition fresh (s : State) : nat := b_fresh (browser s).
Definition hasGetUserMedia (s : State) : bool := b_hasGetUserMedia (browser s).
Definition transports (s : State) : gmap nat Session := b_transports (browser s).
Definition connectedNodes (s : State) : gset nat := b_connectedNodes (browser s).
Definition processors (s : State) : gmap nat nat := b_processors (browser s).
Definition started (s : State) : list Scheduled := b_started (browser s).
Definition stoppedSources (s : State) : gset nat := b_stoppedSources (browser s).
Definition stoppedStreams (s : State) : gset nat := b_stoppedStreams (browser s).
Definition watchedStreams (s : State) : gset nat := b_watchedStreams (browser s).
Definition intervals (s : State) : gmap nat Render := b_intervals (browser s).
Definition timers (s : State) : gmap nat Timer := b_timers (browser s).
Definition outbox (s : State) : list (nat * Outbound) := b_outbox (browser s).
Definition pendingStarts (s : State) : gmap nat StartTask := t_pendingStarts (tasks s).
Definition awaitingSession (s : State) : gset nat := t_awaitingSession (tasks s).
Definition pendingDecodes (s : State) : gmap nat DecodeTask := t_pendingDecodes (tasks s).
Definition pendingMedia (s : State) : gmap nat MediaTask := t_pendingMedia (tasks s).

Definition setStatus (x : SessionStatus) (s : State) : State :=
  {| view := {|
       v_status := x; v_config := config s;
       v_isUserTalking := isUserTalking s;
       v_isModelTalking := isModelTalking s; v_lastCommand := lastCommand s |};
     refs := refs s;
     browser := browser s;
     tasks := tasks s |}.
Definition setConfig (x : LiveConfig) (s : State) : State :=
  {| view := {|
       v_status := status s; v_config := x;
       v_isUserTalking := isUserTalking s;
       v_isModelTalking := isModelTalking s; v_lastCommand := lastCommand s |};
     refs := refs s;
     browser := browser s;
     tasks := tasks s |}.
Definition setIsUserTalking (x : bool) (s : State) : State :=
  {| view := {|
       v_status := status s; v_config := config s; v_isUserTalking := x;
       v_isModelTalking := isModelTalking s; v_lastCommand := lastCommand s |};
     refs := refs s;
     browser := browser s;
     tasks := tasks s |}.
Definition setIsModelTalking (x : bool) (s : State) : State :=
  {| view := {|
       v_status := status s; v_config := config s;
       v_isUserTalking := isUserTalking s; v_isModelTalking := x;
       v_lastCommand := lastCommand s |};
     refs := refs s;
     browser := browser s;
     tasks := tasks s |}.
Definition setLastCommand (x : option json) (s : State) : State :=
  {| view := {|
       v_status := status s; v_config := config s;
       v_isUserTalking := isUserTalking s;
       v_isModelTalking := isModelTalking s; v_lastCommand := x |};
     refs := refs s;
     browser := browser s;
     tasks := tasks s |}.
Definition set_isMutedRef (x : bool) (s : State) : State :=
  {| view := view s;
     refs := {|
       r_isMutedRef := x; r_sessionRef := sessionRef s;
       r_sessionPromiseRef := sessionPromiseRef s;
       r_audioContextRef := audioContextRef s;
       r_audioNodesRef := audioNodesRef s;
       r_nextStartTimeRef := nextStartTimeRef s;
       r_audioSourcesRef := audioSourcesRef s;
       r_videoSrcObject := videoSrcObject s;
       r_frameIntervalRef := frameIntervalRef s;
       r_mediaRequestRef := mediaRequestRef s;
       r_keydownRender := keydownRender s |};
     browser := browser s;
     tasks := tasks s |}.
Definition set_sessionRef (x : option nat) (s : State) : State :=
  {| view := view s;
     refs := {|
       r_isMutedRef := isMutedRef s; r_sessionRef := x;
       r_sessionPromiseRef := sessionPromiseRef s;
       r_audioContextRef := audioContextRef s;
       r_audioNodesRef := audioNodesRef s;
       r_nextStartTimeRef := nextStartTimeRef s;
       r_audioSourcesRef := audioSourcesRef s;
       r_videoSrcObject := videoSrcObject s;
       r_frameIntervalRef := frameIntervalRef s;
       r_mediaRequestRef := mediaRequestRef s;
       r_keydownRender := keydownRender s |};
     browser := browser s;
     tasks := tasks s |}.
Definition set_sessionPromiseRef (x : option nat) (s : State) : State :=
  {| view := view s;
     refs := {|
       r_isMutedRef := isMutedRef s; r_sessionRef := sessionRef s;
       r_sessionPromiseRef := x; r_audioContextRef := audioContextRef s;
       r_audioNodesRef := audioNodesRef s;
       r_nextStartTimeRef := nextStartTimeRef s;
       r_audioSourcesRef := audioSourcesRef s;
       r_videoSrcObject := videoSrcObject s;
       r_frameIntervalRef := frameIntervalRef s;
       r_mediaRequestRef := mediaRequestRef s;
       r_keydownRender := keydownRender s |};
     browser := browser s;
     tasks := tasks s |}.
Definition set_audioContextRef (x : bool) (s : State) : State :=
  {| view := view s;
     refs := {|
       r_isMutedRef := isMutedRef s; r_sessionRef := sessionRef s;
       r_sessionPromiseRef := sessionPromiseRef s; r_audioContextRef := x;
       r_audioNodesRef := audioNodesRef s;
       r_nextStartTimeRef := nextStartTimeRef s;
       r_audioSourcesRef := audioSourcesRef s;
       r_videoSrcObject := videoSrcObject s;
       r_frameIntervalRef := frameIntervalRef s;
       r_mediaRequestRef := mediaRequestRef s;
       r_keydownRender := keydownRender s |};
     browser := browser s;
     tasks := tasks s |}.
Definition set_audioNodesRef (x : option (nat * nat)) (s : State) : State :=
  {| view := view s;
     refs := {|
       r_isMutedRef := isMutedRef s; r_sessionRef := sessionRef s;
       r_sessionPromiseRef := sessionPromiseRef s;
       r_audioContextRef := audioContextRef s; r_audioNodesRef := x;
       r_nextStartTimeRef := nextStartTimeRef s;
       r_audioSourcesRef := audioSourcesRef s;
       r_videoSrcObject := videoSrcObject s;
       r_frameIntervalRef := frameIntervalRef s;
       r_mediaRequestRef := mediaRequestRef s;
       r_keydownRender := keydownRender s |};
     browser := browser s;
     tasks := tasks s |}.
Definition set_nextStartTimeRef (x : float) (s : State) : State :=
  {| view := view s;
     refs := {|
       r_isMutedRef := isMutedRef s; r_sessionRef := sessionRef s;
       r_sessionPromiseRef := sessionPromiseRef s;
       r_audioContextRef := audioContextRef s;
       r_audioNodesRef := audioNodesRef s; r_nextStartTimeRef := x;
       r_audioSourcesRef := audioSourcesRef s;
       r_videoSrcObject := videoSrcObject s;
       r_frameIntervalRef := frameIntervalRef s;
       r_mediaRequestRef := mediaRequestRef s;
       r_keydownRender := keydownRender s |};
     browser := browser s;
     tasks := tasks s |}.
Definition set_audioSourcesRef (x : gset nat) (s : State) : State :=
  {| view := view s;
     refs := {|
       r_isMutedRef := isMutedRef s; r_sessionRef := sessionRef s;
       r_sessionPromiseRef := sessionPromiseRef s;
       r_audioContextRef := audioContextRef s;
       r_audioNodesRef := audioNodesRef s;
       r_nextStartTimeRef := nextStartTimeRef s; r_audioSourcesRef := x;
       r_videoSrcObject := videoSrcObject s;
       r_frameIntervalRef := frameIntervalRef s;
       r_mediaRequestRef := mediaRequestRef s;
       r_keydownRender := keydownRender s |};
     browser := browser s;
     tasks := tasks s |}.
Definition set_videoSrcObject (x : option nat) (s : State) : State :=
  {| view := view s;
     refs := {|
       r_isMutedRef := isMutedRef s; r_sessionRef := sessionRef s;
       r_sessionPromiseRef := sessionPromiseRef s;
       r_audioContextRef := audioContextRef s;
       r_audioNodesRef := audioNodesRef s;
       r_nextStartTimeRef := nextStartTimeRef s;
       r_audioSourcesRef := audioSourcesRef s; r_videoSrcObject := x;
       r_frameIntervalRef := frameIntervalRef s;
       r_mediaRequestRef := mediaRequestRef s;
       r_keydownRender := keydownRender s |};
     browser := browser s;
     tasks := tasks s |}.
Definition set_frameIntervalRef (x : option nat) (s : State) : State :=
  {| view := view s;
     refs := {|
       r_isMutedRef := isMutedRef s; r_sessionRef := sessionRef s;
       r_sessionPromiseRef := sessionPromiseRef s;
       r_audioContextRef := audioContextRef s;
       r_audioNodesRef := audioNodesRef s;
       r_nextStartTimeRef := nextStartTimeRef s;
       r_audioSourcesRef := audioSourcesRef s;
       r_videoSrcObject := videoSrcObject s; r_frameIntervalRef := x;
       r_mediaRequestRef := mediaRequestRef s;
       r_keydownRender := keydownRender s |};
     browser := browser s;
     tasks := tasks s |}.
Definition set_mediaRequestRef (x : nat) (s : State) : State :=
  {| view := view s;
     refs := {|
       r_isMutedRef := isMutedRef s; r_sessionRef := sessionRef s;
       r_sessionPromiseRef := sessionPromiseRef s;
       r_audioContextRef := audioContextRef s;
       r_audioNodesRef := audioNodesRef s;
       r_nextStartTimeRef := nextStartTimeRef s;
       r_audioSourcesRef := audioSourcesRef s;
       r_videoSrcObject := videoSrcObject s;
       r_frameIntervalRef := frameIntervalRef s; r_mediaRequestRef := x;
       r_keydownRender := keydownRender s |};
     browser := browser s;
     tasks := tasks s |}.
Definition set_keydownRender (x : Render) (s : State) : State :=
  {| view := view s;
     refs := {|
       r_isMutedRef := isMutedRef s; r_sessionRef := sessionRef s;
       r_sessionPromiseRef := sessionPromiseRef s;
       r_audioContextRef := audioContextRef s;
       r_audioNodesRef := audioNodesRef s;
       r_nextStartTimeRef := nextStartTimeRef s;
       r_audioSourcesRef := audioSourcesRef s;
       r_videoSrcObject := videoSrcObject s;
       r_frameIntervalRef := frameIntervalRef s;
       r_mediaRequestRef := mediaRequestRef s; r_keydownRender := x |};
     browser := browser s;
     tasks := tasks s |}.
Definition set_now (x : N) (s : State) : State :=
  {| view := view s;
     refs := refs s;
     browser := {|
       b_now := x; b_fresh := fresh s;
       b_hasGetUserMedia := hasGetUserMedia s; b_transports := transports s;
       b_connectedNodes := connectedNodes s; b_processors := processors s;
       b_started := started s; b_stoppedSources := stoppedSources s;
       b_stoppedStreams := stoppedStreams s;
       b_watchedStreams := watchedStreams s; b_intervals := intervals s;
       b_timers := timers s; b_outbox := outbox s |};
     tasks := tasks s |}.
Definition set_fresh (x : nat) (s : State) : State :=
  {| view := view s;
     refs := refs s;
     browser := {|
       b_now := now s; b_fresh := x; b_hasGetUserMedia := hasGetUserMedia s;
       b_transports := transports s; b_connectedNodes := connectedNodes s;
       b_processors := processors s; b_started := started s;
       b_stoppedSources := stoppedSources s;
       b_stoppedStreams := stoppedStreams s;
       b_watchedStreams := watchedStreams s; b_intervals := intervals s;
       b_timers := timers s; b_outbox := outbox s |};
     tasks := tasks s |}.
Definition set_transports (x : gmap nat Session) (s : State) : State :=
  {| view := view s;
     refs := refs s;
     browser := {|
       b_now := now s; b_fresh := fresh s;
       b_hasGetUserMedia := hasGetUserMedia s; b_transports := x;
       b_connectedNodes := connectedNodes s; b_processors := processors s;
       b_started := started s; b_stoppedSources := stoppedSources s;
       b_stoppedStreams := stoppedStreams s;
       b_watchedStreams := watchedStreams s; b_intervals := intervals s;
       b_timers := timers s; b_outbox := outbox s |};
     tasks := tasks s |}.
Definition set_connectedNodes (x : gset nat) (s : State) : State :=
  {| view := view s;
     refs := refs s;
     browser := {|
       b_now := now s; b_fresh := fresh s;
       b_hasGetUserMedia := hasGetUserMedia s; b_transports := transports s;
       b_connectedNodes := x; b_processors := processors s;
       b_started := started s; b_stoppedSources := stoppedSources s;
       b_stoppedStreams := stoppedStreams s;
       b_watchedStreams := watchedStreams s; b_intervals := intervals s;
       b_timers := timers s; b_outbox := outbox s |};
     tasks := tasks s |}.
Definition set_processors (x : gmap nat nat) (s : State) : State :=
  {| view := view s;
     refs := refs s;
     browser := {|
       b_now := now s; b_fresh := fresh s;
       b_hasGetUserMedia := hasGetUserMedia s; b_transports := transports s;
       b_connectedNodes := connectedNodes s; b_processors := x;
       b_started := started s; b_stoppedSources := stoppedSources s;
       b_stoppedStreams := stoppedStreams s;
       b_watchedStreams := watchedStreams s; b_intervals := intervals s;
       b_timers := timers s; b_outbox := outbox s |};
     tasks := tasks s |}.
Definition set_started (x : list Scheduled) (s : State) : State :=
  {| view := view s;
     refs := refs s;
     browser := {|
       b_now := now s; b_fresh := fresh s;
       b_hasGetUserMedia := hasGetUserMedia s; b_transports := transports s;
       b_connectedNodes := connectedNodes s; b_processors := processors s;
       b_started := x; b_stoppedSources := stoppedSources s;
       b_stoppedStreams := stoppedStreams s;
       b_watchedStreams := watchedStreams s; b_intervals := intervals s;
       b_timers := timers s; b_outbox := outbox s |};
     tasks := tasks s |}.
Definition set_stoppedSources (x : gset nat) (s : State) : State :=
  {| view := view s;
     refs := refs s;
     browser := {|
       b_now := now s; b_fresh := fresh s;
       b_hasGetUserMedia := hasGetUserMedia s; b_transports := transports s;
       b_connectedNodes := connectedNodes s; b_processors := processors s;
       b_started := started s; b_stoppedSources := x;
       b_stoppedStreams := stoppedStreams s;
       b_watchedStreams := watchedStreams s; b_intervals := intervals s;
       b_timers := timers s; b_outbox := outbox s |};
     tasks := tasks s |}.
Definition set_stoppedStreams (x : gset nat) (s : State) : State :=
  {| view := view s;
     refs := refs s;
     browser := {|
       b_now := now s; b_fresh := fresh s;
       b_hasGetUserMedia := hasGetUserMedia s; b_transports := transports s;
       b_connectedNodes := connectedNodes s; b_processors := processors s;
       b_started := started s; b_stoppedSources := stoppedSources s;
       b_stoppedStreams := x; b_watchedStreams := watchedStreams s;
       b_intervals := intervals s; b_timers := timers s; b_outbox := outbox s |};
     tasks := tasks s |}.
Definition set_watchedStreams (x : gset nat) (s : State) : State :=
  {| view := view s;
     refs := refs s;
     browser := {|
       b_now := now s; b_fresh := fresh s;
       b_hasGetUserMedia := hasGetUserMedia s; b_transports := transports s;
       b_connectedNodes := connectedNodes s; b_processors := processors s;
       b_started := started s; b_stoppedSources := stoppedSources s;
       b_stoppedStreams := stoppedStreams s; b_watchedStreams := x;
       b_intervals := intervals s; b_timers := timers s; b_outbox := outbox s |};
     tasks := tasks s |}.
Definition set_intervals (x : gmap nat Render) (s : State) : State :=
  {| view := view s;
     refs := refs s;
     browser := {|
       b_now := now s; b_fresh := fresh s;
       b_hasGetUserMedia := hasGetUserMedia s; b_transports := transports s;
       b_connectedNodes := connectedNodes s; b_processors := processors s;
       b_started := started s; b_stoppedSources := stoppedSources s;
       b_stoppedStreams := stoppedStreams s;
       b_watchedStreams := watchedStreams s; b_intervals := x;
       b_timers := timers s; b_outbox := outbox s |};
     tasks := tasks s |}.
Definition set_timers (x : gmap nat Timer) (s : State) : State :=
  {| view := view s;
     refs := refs s;
     browser := {|
       b_now := now s; b_fresh := fresh s;
       b_hasGetUserMedia := hasGetUserMedia s; b_transports := transports s;
       b_connectedNodes := connectedNodes s; b_processors := processors s;
       b_started := started s; b_stoppedSources := stoppedSources s;
       b_stoppedStreams := stoppedStreams s;
       b_watchedStreams := watchedStreams s; b_intervals := intervals s;
       b_timers := x; b_outbox := outbox s |};
     tasks := tasks s |}.
Definition set_outbox (x : list (nat * Outbound)) (s : State) : State :=
  {| view := view s;
     refs := refs s;
     browser := {|
       b_now := now s; b_fresh := fresh s;
       b_hasGetUserMedia := hasGetUserMedia s; b_transports := transports s;
       b_connectedNodes := connectedNodes s; b_processors := processors s;
       b_started := started s; b_stoppedSources := stoppedSources s;
       b_stoppedStreams := stoppedStreams s;
       b_watchedStreams := watchedStreams s; b_intervals := intervals s;
       b_timers := timers s; b_outbox := x |};
     tasks := tasks s |}.
Definition set_pendingStarts (x : gmap nat StartTask) (s : State) : State :=
  {| view := view s;
     refs := refs s;
     browser := browser s;
     tasks := {|
       t_pendingStarts := x; t_awaitingSession := awaitingSession s;
       t_pendingDecodes := pendingDecodes s; t_pendingMedia := pendingMedia s |} |}.
Definition set_awaitingSession (x : gset nat) (s : State) : State :=
  {| view := view s;
     refs := refs s;
     browser := browser s;
     tasks := {|
       t_pendingStarts := pendingStarts s; t_awaitingSession := x;
       t_pendingDecodes := pendingDecodes s; t_pendingMedia := pendingMedia s |} |}.
Definition set_pendingDecodes (x : gmap nat DecodeTask) (s : State) : State :=
  {| view := view s;
     refs := refs s;
     browser := browser s;
     tasks := {|
       t_pendingStarts := pendingStarts s;
       t_awaitingSession := awaitingSession s; t_pendingDecodes := x;
       t_pendingMedia := pendingMedia s |} |}.
Definition set_pendingMedia (x : gmap nat MediaTask) (s : State) : State :=
  {| view := view s;
     refs := refs s;
     browser := browser s;
     tasks := {|
       t_pendingStarts := pendingStarts s;
       t_awaitingSession := awaitingSession s;
       t_pendingDecodes := pendingDecodes s; t_pendingMedia := x |} |}.


(** [setConfig(prev => ...)] *)
Definition updateConfig (f : LiveConfig -> LiveConfig) (s : State) : State :=
  setConfig (f (config s)) s.

Definition withCapture (camera screen : bool) (c : LiveConfig) : LiveConfig :=
  {| model := model c; systemInstruction := systemInstruction c;
     voiceName := voiceName c; isCameraEnabled := camera;
     isScreenSharing := screen; isMuted := isMuted c;
     isMouseMode := isMouseMode c |}.

Definition withCamera (camera : bool) (c : LiveConfig) : LiveConfig :=
  withCapture camera (isScreenSharing c) c.

Definition withScreen (screen : bool) (c : LiveConfig) : LiveConfig :=
  withCapture (isCameraEnabled c) screen c.

Definition withMuted (muted : bool) (c : LiveConfig) : LiveConfig :=
  {| model := model c; systemInstruction := systemInstruction c;
     voiceName := voiceName c; isCameraEnabled := isCameraEnabled c;
     isScreenSharing := isScreenSharing c; isMuted := muted;
     isMouseMode := isMouseMode c |}.

Definition withMode (enabled : bool) (instruction : jsstring) (c : LiveConfig) :
  LiveConfig :=
  {| model := model c; systemInstruction := Some instruction;
     voiceName := voiceName c; isCameraEnabled := isCameraEnabled c;
     isScreenSharing := isScreenSharing c; isMuted := isMuted c;
     isMouseMode := enabled |}.

Definition currentRender (s : State) : Render :=
  {| r_status := status s; r_config := config s |}.

(** ** Browser operations *)

Definition withTransport (t : Transport) (x : Session) : Session :=
  {| transport := t; captured := captured x; withVisual := withVisual x;
     sessionIsMouseMode := sessionIsMouseMode x;
     sessionInstruction := sessionInstruction x |}.

(** [session.close()] *)
Definition closeSession (sid : nat) (s : State) : State :=
  set_transports (alter (withTransport TClosed) sid (transports s)) s.

(** [node.disconnect()]: drops every outgoing connection of the node. *)
Definition disconnectNode (node : nat) (s : State) : State :=
  set_connectedNodes (connectedNodes s ∖ {[node]}) s.

(** [audioSourcesRef.current.forEach(s => { try { s.stop(); } catch(e) {} })] *)
Definition stopSources (s : State) : State :=
  set_stoppedSources (stoppedSources s ∪ audioSourcesRef s) s.

(** [stream.getTracks().forEach(t => t.stop())] *)
Definition stopTracks (stream : nat) (s : State) : State :=
  set_stoppedStreams (stoppedStreams s ∪ {[stream]}) s.

Definition clearInterval (id : nat) (s : State) : State :=
  set_intervals (delete id (intervals s)) s.

Definition setTimeout (delay : N) (a : TimerAction) (s : State) : State :=
  let id := fresh s in
  set_timers (<[id := {| due := (now s + delay)%N; action := a |}]> (timers s))
    (set_fresh (S id) s).

(** A call on the session behind a session promise. *)
Definition send (sid : nat) (payload : Outbound) (s : State) : State :=
  set_outbox ((sid, payload) :: outbox s) s.

(** ** The callbacks *)

Definition stopSession (s : State) : State :=
  let s :=
    match sessionRef s with
    | Some sid => set_sessionRef None (closeSession sid s)
    | None => s
    end in
  let s := set_sessionPromiseRef None s in
  let s :=
    match audioNodesRef s with
    | Some (source, processor) =>
        disconnectNode source (disconnectNode processor s)
    | None => s
    end in
  let s := set_audioSourcesRef ∅ (stopSources s) in
  let s :=
    match videoSrcObject s with
    | Some stream => set_videoSrcObject None (stopTracks stream s)
    | None => s
    end in
  let s :=
    match frameIntervalRef s with
    | Some id => set_frameIntervalRef None (clearInterval id s)
    | None => s
    end in
  let s := setStatus IDLE s in
  let s := setIsUserTalking false s in
  let s := setIsModelTalking false s in
  updateConfig (withCapture false false) s.

(** [startSession] up to its first [await].  Resuming the two contexts and
    acquiring the microphone change no cell, so the three awaits are one
    suspension; it ends in [startSession_connect] or [startSession_catch]. *)
Definition startSession (r : Render) (visual : bool)
    (instructionOverride : option jsstring) (isMouseModeOverride : option bool)
    (s : State) : State :=
  if negb (hasGetUserMedia s) then s
  else
    let s := setStatus CONNECTING s in
    let s := set_audioContextRef true s in
    let k := fresh s in
    set_pendingStarts
      (<[k := {| st_render := r; st_withVisual := visual;
                 st_instructionOverride := instructionOverride;
                 st_isMouseModeOverride := isMouseModeOverride |}]>
         (pendingStarts s))
      (set_fresh (S k) s).

(** [a || b] on optional strings *)
Definition orElse (a b : option jsstring) : option jsstring :=
  match a with
  | Some (_ :: _) => a
  | _ => b
  end.

(** From the microphone stream to [await sessionPromise]. *)
Definition startSession_connect (k : nat) (s : State) : State :=
  match pendingStarts s !! k with
  | None => s
  | Some t =>
      let s := set_pendingStarts (delete k (pendingStarts s)) s in
      let r := st_render t in
      let mouse :=
        match st_isMouseModeOverride t with
        | Some b => b
        | None => isMouseMode (r_config r)
        end in
      let instruction :=
        orElse (st_instructionOverride t) (systemInstruction (r_config r)) in
      let sid := fresh s in
      let s := set_fresh (S sid) s in
      let s :=
        set_transports
          (<[sid := {| transport := TOpening; captured := r;
                       withVisual := st_withVisual t;
                       sessionIsMouseMode := mouse;
                       sessionInstruction := instruction |}]> (transports s)) s in
      let s := set_sessionPromiseRef (Some sid) s in
      set_awaitingSession (awaitingSession s ∪ {[sid]}) s
  end.

(** [catch (err) { setStatus(SessionStatus.IDLE); }] before the connect *)
Definition startSession_catch (k : nat) (s : State) : State :=
  match pendingStarts s !! k with
  | None => s
  | Some _ => setStatus IDLE (set_pendingStarts (delete k (pendingStarts s)) s)
  end.

(** [sessionRef.current = await sessionPromise] *)
Definition startSession_resolved (sid : nat) (s : State) : State :=
  if decide (sid ∈ awaitingSession s) then
    set_sessionRef (Some sid)
      (set_awaitingSession (awaitingSession s ∖ {[sid]}) s)
  else s.

(** The session promise rejects: the same catch. *)
Definition startSession_rejected (sid : nat) (s : State) : State :=
  if decide (sid ∈ awaitingSession s) then
    setStatus IDLE
      (closeSession sid (set_awaitingSession (awaitingSession s ∖ {[sid]}) s))
  else s.

Definition stopMediaTracks (s : State) : State :=
  let s :=
    match videoSrcObject s with
    | Some oldStream => set_videoSrcObject None (stopTracks oldStream s)
    | None => s
    end in
  match frameIntervalRef s with
  | Some id => set_frameIntervalRef None (clearInterval id s)
  | None => s
  end.

(** The video element and the canvas are mounted for the life of the
    component. *)
Definition startMediaStreaming (r : Render) (stream : nat) (s : State) : State :=
  let s := set_videoSrcObject (Some stream) s in
  let s :=
    match frameIntervalRef s with
    | Some id => clearInterval id s
    | None => s
    end in
  let id := fresh s in
  let s := set_fresh (S id) s in
  let s := set_intervals (<[id := r]> (intervals s)) s in
  let s := set_frameIntervalRef (Some id) s in
  set_watchedStreams (watchedStreams s ∪ {[stream]}) s.

Definition awaitMedia (kind : MediaKind) (sequence : nat) (r : Render)
    (s : State) : State :=
  let k := fresh s in
  set_pendingMedia
    (<[k := {| mt_kind := kind; mt_sequence := sequence; mt_render := r |}]>
       (pendingMedia s))
    (set_fresh (S k) s).

(** [toggleCamera] up to [await getUserMedia]. *)
Definition toggleCamera (r : Render) (forceEnable : bool) (s : State) : State :=
  let sequence := S (mediaRequestRef s) in
  let s := set_mediaRequestRef sequence s in
  let shouldEnable := forceEnable || negb (isCameraEnabled (r_config r)) in
  let s := stopMediaTracks s in
  if shouldEnable then awaitMedia Camera sequence r s
  else updateConfig (withCamera false) s.

(** [toggleScreenShare] up to [await getDisplayMedia]. *)
Definition toggleScreenShare (r : Render) (forceEnable : bool) (s : State) : State :=
  let sequence := S (mediaRequestRef s) in
  let s := set_mediaRequestRef sequence s in
  let shouldEnable := forceEnable || negb (isScreenSharing (r_config r)) in
  let s := stopMediaTracks s in
  if shouldEnable then awaitMedia Screen sequence r s
  else updateConfig (withScreen false) s.

(** The acquisition [t] resolved with [stream]. *)
Definition acquired (t : MediaTask) (stream : nat) (s : State) : State :=
  if negb (mt_sequence t =? mediaRequestRef s) then stopTracks stream s
  else
    let s := startMediaStreaming (mt_render t) stream s in
    match mt_kind t with
    | Camera => updateConfig (withCapture true false) s
    | Screen => updateConfig (withCapture false true) s
    end.

(** The acquisition [t] failed: the catch block. *)
Definition acquisitionFailed (t : MediaTask) (s : State) : State :=
  match mt_kind t with
  | Camera => updateConfig (withCamera false) s
  | Screen => updateConfig (withScreen false) s
  end.

Definition toggle_resolved (k : nat) (s : State) : State :=
  match pendingMedia s !! k with
  | None => s
  | Some t =>
      let s := set_pendingMedia (delete k (pendingMedia s)) s in
      let stream := fresh s in
      acquired t stream (set_fresh (S stream) s)
  end.

Definition toggle_rejected (k : nat) (s : State) : State :=
  match pendingMedia s !! k with
  | None => s
  | Some t =>
      acquisitionFailed t (set_pendingMedia (delete k (pendingMedia s)) s)
  end.

(** [stream.getVideoTracks()[0].onended] *)
Definition onTrackEnded (s : State) : State :=
  updateConfig (withCapture false false) (stopMediaTracks s).

(** The 1 Hz sampler.  The still is encoded by two further callbacks that
    change no cell; they are folded into the tick. *)
Definition sampleFrame (r : Render) (s : State) : State :=
  if decide (r_status r = CONNECTED) then
    match sessionPromiseRef s with
    | Some sid => send sid (RealtimeImage (videoSrcObject s)) s
    | None => s
    end
  else s.

Definition applyMouseMode (r : Render) (enabled : bool) (s : State) : State :=
  let nextInstruction :=
    if enabled then MOUSE_SYSTEM_INSTRUCTION else NORMAL_SYSTEM_INSTRUCTION in
  let s := updateConfig (withMode enabled nextInstruction) s in
  if bool_decide (r_status r = CONNECTED) || bool_decide (r_status r = CONNECTING) then
    let wasCameraEnabled := isCameraEnabled (r_config r) in
    let wasScreenSharing := isScreenSharing (r_config r) in
    let s := stopSession s in
    setTimeout 150
      (Reconnect r (wasCameraEnabled || wasScreenSharing) nextInstruction enabled) s
  else s.

Definition toggleMouseMode (r : Render) (s : State) : State :=
  applyMouseMode r (negb (isMouseMode (r_config r))) s.

(** [onopen] of the session [sid]. *)
Definition onopen (sid : nat) (x : Session) (s : State) : State :=
  let s := setStatus CONNECTED s in
  let source := fresh s in
  let scriptProcessor := S source in
  let s := set_fresh (S scriptProcessor) s in
  let s := set_processors (<[scriptProcessor := sid]> (processors s)) s in
  let s :=
    set_connectedNodes (connectedNodes s ∪ {[source]} ∪ {[scriptProcessor]}) s in
  let s := set_audioNodesRef (Some (source, scriptProcessor)) s in
  if withVisual x then
    if isScreenSharing (r_config (captured x))
    then toggleScreenShare (captured x) true s
    else toggleCamera (captured x) true s
  else s.

(** [scriptProcessor.onaudioprocess] of a processor wired to [sid];
    [inputData] holds the samples of the frame as the Numbers that [reduce]
    reads from the array. *)
Definition onaudioprocess (sid : nat) (inputData : list float) (s : State) :
  State :=
  if isMutedRef s then setIsUserTalking false s
  else
    let sum :=
      fold_left (fun a b => (a + PrimFloat.abs b)%float) inputData 0%float in
    let mean := (sum / ofN (N.of_nat (length inputData)))%float in
    let s := setIsUserTalking (PrimFloat.ltb threshold mean) s in
    send sid (RealtimeAudio (createBlob inputData)) s.

Definition isJsonLike (text : jsstring) : bool :=
  let trimmed := trim text in
  startsWith trimmed (js "{") && includes trimmed (jsq "'action'").

(** [cmd.action && cmd.action !== 'none'] *)
Definition hasAction (cmd : json) : bool :=
  match getMember (js "action") cmd with
  | Some (JString a) => truthy (JString a) && negb (code_eqb a (js "none"))
  | Some a => truthy a
  | None => false
  end.

(** The body of the [try] block of the text branch. *)
Definition publishCommand (text : jsstring) (s : State) : completion State :=
  match matchBraceSpan text with
  | Some jsonMatch =>
      cbind (JSON_parse jsonMatch) (fun cmd =>
        if hasAction cmd
        then Normal (setTimeout 3000 ExpireCommand (setLastCommand (Some cmd) s))
        else Normal s)
  | None => Normal s
  end.

Definition hasText (p : Part) : bool :=
  match text p with
  | Some (_ :: _) => true
  | _ => false
  end.

Definition parts (m : LiveServerMessage) : option (list Part) :=
  match serverContent m with
  | Some c => modelTurn c
  | None => None
  end.

(** The text branch of [onmessage]. *)
Definition onmessage_text (mouse : bool) (m : LiveServerMessage) (s : State) :
  completion State :=
  if mouse then
    match parts m with
    | Some ps =>
        match find hasText ps with
        | Some {| text := Some t |} =>
            if isJsonLike t
            then tryCatch (publishCommand t s) (fun _ => Normal s)
            else Normal s
        | _ => Normal s
        end
    | None => Normal s
    end
  else Normal s.

Definition isInterrupted (m : LiveServerMessage) : bool :=
  match serverContent m with
  | Some c => interrupted c
  | None => false
  end.

(** The block run on [message.serverContent?.interrupted]. *)
Definition interrupt (s : State) : State :=
  let s := stopSources s in
  let s := set_audioSourcesRef ∅ s in
  let s := set_nextStartTimeRef 0%float s in
  setIsModelTalking false s.

Definition onmessage_interrupted (flag : bool) (s : State) : State :=
  if flag then interrupt s else s.

(** [message.serverContent?.modelTurn?.parts[0]?.inlineData?.data], when
    truthy *)
Definition audioData (m : LiveServerMessage) : option jsstring :=
  match parts m with
  | Some (p :: _) =>
      match inlineData p with
      | Some (c :: d) => Some (c :: d)
      | _ => None
      end
  | _ => None
  end.

(** The audio branch up to [await decodeAudioData]; [clock] is
    [outputCtx.currentTime]. *)
Definition onmessage_audio (clock : float) (flag : bool) (s : State) : State :=
  let s := setIsModelTalking true s in
  let s := set_nextStartTimeRef (Math_max (nextStartTimeRef s) clock) s in
  let k := fresh s in
  set_pendingDecodes
    (<[k := {| dt_interrupted := flag |}]> (pendingDecodes s))
    (set_fresh (S k) s).

(** The audio branch after the await, and the rest of the handler. *)
Definition schedule (audioBuffer : AudioBuffer) (s : State) : State :=
  let source := fresh s in
  let s := set_fresh (S source) s in
  let s :=
    set_started
      ({| sc_source := source; sc_start := nextStartTimeRef s;
          sc_duration := duration audioBuffer |} :: started s) s in
  let s :=
    set_nextStartTimeRef (nextStartTimeRef s + duration audioBuffer)%float s in
  set_audioSourcesRef (audioSourcesRef s ∪ {[source]}) s.

Definition onmessage_resume (k : nat) (audioBuffer : AudioBuffer) (s : State) :
  State :=
  match pendingDecodes s !! k with
  | None => s
  | Some t =>
      let s := set_pendingDecodes (delete k (pendingDecodes s)) s in
      onmessage_interrupted (dt_interrupted t) (schedule audioBuffer s)
  end.

(** [decodeAudioData] rejects: the handler ends there. *)
Definition onmessage_abort (k : nat) (s : State) : State :=
  set_pendingDecodes (delete k (pendingDecodes s)) s.

Definition isMouseControl (fc : FunctionCall) : bool :=
  bool_decide (fc_name fc = js "set_mouse_control").

Definition mouseControlCall (m : LiveServerMessage) : option FunctionCall :=
  match toolCall m with
  | Some functionCalls => find isMouseControl functionCalls
  | None => None
  end.

Definition acknowledgement (enabled : bool) : jsstring :=
  js "Mouse mode " ++ (if enabled then js "activated" else js "deactivated").

(** [onmessage] of the session [sid], up to its first suspension.  The tool
    response is sent from a promise reaction, after [applyMouseMode]
    returned. *)
Definition onmessage (sid : nat) (x : Session) (m : LiveServerMessage)
    (clock : float) (s : State) : State :=
  match mouseControlCall m with
  | Some fc =>
      send sid
        (ToolResponse (fc_id fc) (fc_name fc) (acknowledgement (fc_enabled fc)))
        (applyMouseMode (captured x) (fc_enabled fc) s)
  | None =>
      match onmessage_text (sessionIsMouseMode x) m s with
      | Throw _ => s
      | Normal s =>
          match audioData m with
          | Some _ => onmessage_audio clock (isInterrupted m) s
          | None => onmessage_interrupted (isInterrupted m) s
          end
      end
  end.

(** [source.onended] *)
Definition onended (source : nat) (s : State) : State :=
  let s := set_audioSourcesRef (audioSourcesRef s ∖ {[source]}) s in
  if bool_decide (audioSourcesRef s = ∅) then setIsModelTalking false s else s.

Definition handleKeyDown (r : Render) (key : jsstring) (s : State) : State :=
  let key := toLowerCase key in
  if bool_decide (key = js "enter") then
    if bool_decide (r_status r = CONNECTED) then stopSession s
    else startSession r false None None s
  else if bool_decide (key = js "m") then
    updateConfig (fun prev => withMuted (negb (isMuted prev)) prev) s
  else if bool_decide (key = js "escape") && bool_decide (r_status r = CONNECTED)
  then stopSession s
  else s.

Definition fire (a : TimerAction) (s : State) : State :=
  match a with
  | ExpireCommand => setLastCommand None s
  | Reconnect r visual instruction mouse =>
      startSession r visual (Some instruction) (Some mouse) s
  end.

(** ** Events *)

Inductive Event :=
(* the user *)
| KeyDown (key : jsstring)
| ClickCall
| ClickMute
| ClickCamera
| ClickScreenShare
| ClickMouseMode
(* timers *)
| Elapse (ms : N)
| TimerFires (id : nat)
| IntervalFires (id : nat)
(* startSession resumed *)
| MicrophoneGranted (k : nat)
| MicrophoneDenied (k : nat)
| SessionResolved (sid : nat)
| SessionRejected (sid : nat)
(* the transport *)
| SessionOpened (sid : nat)
| SessionMessage (sid : nat) (m : LiveServerMessage) (clock : float)
| SessionError (sid : nat)
| SessionClosed (sid : nat)
(* audio *)
| Decoded (k : nat) (audioBuffer : AudioBuffer)
| DecodeFailed (k : nat)
| AudioProcess (processor : nat) (inputData : list float)
| SourceEnded (source : nat)
(* camera and screen *)
| MediaGranted (k : nat)
| MediaDenied (k : nat)
| TrackEnded (stream : nat).

(** The callback an event runs; an event that cannot occur in [s] runs
    none. *)
Definition handle (e : Event) (s : State) : State :=
  match e with
  | KeyDown key => handleKeyDown (keydownRender s) key s
  | ClickCall =>
      if bool_decide (status s = CONNECTED) then stopSession s
      else startSession (currentRender s) false None None s
  | ClickMute => updateConfig (fun prev => withMuted (negb (isMuted prev)) prev) s
  | ClickCamera => toggleCamera (currentRender s) false s
  | ClickScreenShare => toggleScreenShare (currentRender s) false s
  | ClickMouseMode => toggleMouseMode (currentRender s) s
  | Elapse ms => set_now (now s + ms)%N s
  | TimerFires id =>
      match timers s !! id with
      | Some t =>
          if (due t <=? now s)%N
          then fire (action t) (set_timers (delete id (timers s)) s)
          else s
      | None => s
      end
  | IntervalFires id =>
      match intervals s !! id with
      | Some r => sampleFrame r s
      | None => s
      end
  | MicrophoneGranted k => startSession_connect k s
  | MicrophoneDenied k => startSession_catch k s
  | SessionResolved sid => startSession_resolved sid s
  | SessionRejected sid => startSession_rejected sid s
  | SessionOpened sid =>
      match transports s !! sid with
      | Some x =>
          if bool_decide (transport x = TOpening)
          then onopen sid x
                 (set_transports (<[sid := withTransport TOpen x]> (transports s)) s)
          else s
      | None => s
      end
  | SessionMessage sid m clock =>
      match transports s !! sid with
      | Some x =>
          if bool_decide (transport x = TOpen) then onmessage sid x m clock s
          else s
      | None => s
      end
  | SessionError sid =>
      match transports s !! sid with
      | Some _ => stopSession s
      | None => s
      end
  | SessionClosed sid =>
      match transports s !! sid with
      | Some _ => stopSession (closeSession sid s)
      | None => s
      end
  | Decoded k audioBuffer => onmessage_resume k audioBuffer s
  | DecodeFailed k => onmessage_abort k s
  | AudioProcess processor inputData =>
      match processors s !! processor with
      | Some sid =>
          if bool_decide (processor ∈ connectedNodes s)
          then onaudioprocess sid inputData s
          else s
      | None => s
      end
  | SourceEnded source =>
      if bool_decide (source ∈ map sc_source (started s)) then onended source s
      else s
  | MediaGranted k => toggle_resolved k s
  | MediaDenied k => toggle_rejected k s
  | TrackEnded stream =>
      if bool_decide (stream ∈ watchedStreams s)
         && negb (bool_decide (stream ∈ stoppedStreams s))
      then onTrackEnded s
      else s
  end.

(** After the callback React renders and runs the effects: the mute ref
    follows [config.isMuted], and the key handler is installed anew when
    [status] changed. *)
Definition commit (before after : State) : State :=
  let s :=
    if bool_decide (status before = status after) then after
    else set_keydownRender (currentRender after) after in
  set_isMutedRef (isMuted (config s)) s.

Definition step (s : State) (e : Event) : State :=
  commit s (handle e s).

Definition run (s : State) (es : list Event) : State :=
  fold_left step es s.

Definition initialConfig : LiveConfig :=
  {| model := MODEL_NAME;
     systemInstruction := Some MOUSE_SYSTEM_INSTRUCTION;
     voiceName := Zephyr; isCameraEnabled := false; isScreenSharing := false;
     isMuted := false; isMouseMode := true |}.

(** The component after its first render, in a browser that has
    [getUserMedia] or lacks it. *)
Definition init (hasUserMedia : bool) : State :=
  {| view :=
       {| v_status := IDLE; v_config := initialConfig;
          v_isUserTalking := false; v_isModelTalking := false;
          v_lastCommand := None |};
     refs :=
       {| r_isMutedRef := false; r_sessionRef := None;
          r_sessionPromiseRef := None; r_audioContextRef := false;
          r_audioNodesRef := None; r_nextStartTimeRef := 0%float;
          r_audioSourcesRef := ∅; r_videoSrcObject := None;
          r_frameIntervalRef := None; r_mediaRequestRef := 0;
          r_keydownRender := {| r_status := IDLE; r_config := initialConfig |} |};
     browser :=
       {| b_now := 0%N; b_fresh := 0; b_hasGetUserMedia := hasUserMedia;
          b_transports := ∅; b_connectedNodes := ∅; b_processors := ∅;
          b_started := []; b_stoppedSources := ∅; b_stoppedStreams := ∅;
          b_watchedStreams := ∅; b_intervals := ∅; b_timers := ∅;
          b_outbox := [] |};
     tasks :=
       {| t_pendingStarts := ∅; t_awaitingSession := ∅;
          t_pendingDecodes := ∅; t_pendingMedia := ∅ |} |}.

(** ** Notions used by the statements *)

(** A model turn with a single text part. *)
Definition textMessage (t : jsstring) : LiveServerMessage :=
  {| toolCall := None;
     serverContent :=
       Some {| modelTurn := Some [{| text := Some t; inlineData := None |}];
               interrupted := false |} |}.

(** The sessions whose transport is open. *)
Definition openSessions (s : State) : gmap nat Session :=
  filter (fun kv => transport (snd kv) = TOpen) (transports s).

(** The stream identities in use lie below the allocation index. *)
Definition allocated (s : State) : Prop :=
  (∀ stream, videoSrcObject s = Some stream → stream < fresh s) ∧
  (∀ sid stream, (sid, RealtimeImage (Some stream)) ∈ outbox s → stream < fresh s).

(** The timer [id] is pending with contents [t], below the allocation
    index. *)
Definition keeps (id : nat) (t : Timer) (s : State) : Prop :=
  timers s !! id = Some t ∧ id < fresh s.

(** The stream was released and is neither the source of the video element
    nor the subject of a still that was sent. *)
Definition discarded (stream : nat) (s : State) : Prop :=
  stream < fresh s ∧
  stream ∈ stoppedStreams s ∧
  videoSrcObject s ≠ Some stream ∧
  ∀ sid, (sid, RealtimeImage (Some stream)) ∉ outbox s.


(** What the interruption block establishes, from the state it ran in. *)
Definition playbackReset (before after : State) : Prop :=
  audioSourcesRef before ⊆ stoppedSources after ∧
  audioSourcesRef after = ∅ ∧
  nextStartTimeRef after = 0%float ∧
  isModelTalking after = false.

(** What teardown establishes, from the state it ran in. *)
Definition tornDown (before after : State) : Prop :=
  (∀ sid x, sessionRef before = Some sid → transports before !! sid = Some x →
     transports after !! sid = Some (withTransport TClosed x)) ∧
  sessionRef after = None ∧
  sessionPromiseRef after = None ∧
  (∀ source processor, audioNodesRef before = Some (source, processor) →
     (source ∉ connectedNodes after) ∧ (processor ∉ connectedNodes after)) ∧
  audioSourcesRef before ⊆ stoppedSources after ∧
  audioSourcesRef after = ∅ ∧
  (∀ stream, videoSrcObject before = Some stream → stream ∈ stoppedStreams after) ∧
  videoSrcObject after = None ∧
  (∀ id, frameIntervalRef before = Some id → intervals after !! id = None) ∧
  frameIntervalRef after = None ∧
  isUserTalking after = false ∧
  isModelTalking after = false ∧
  isCameraEnabled (config after) = false ∧
  isScreenSharing (config after) = false ∧
  status after = IDLE.

(** The transport of [sid] reports an error or its closing. *)
Definition endsSession (sid : nat) (e : Event) : Prop :=
  e = SessionError sid ∨ e = SessionClosed sid.

(** ** Scenarios *)

(** A model turn with a single audio part. *)
Definition audioMessage (d : jsstring) : LiveServerMessage :=
  {| toolCall := None;
     serverContent :=
       Some {| modelTurn := Some [{| text := None; inlineData := Some d |}];
               interrupted := false |} |}.

(** The interruption signal on its own. *)
Definition interruptionSignal : LiveServerMessage :=
  {| toolCall := None;
     serverContent := Some {| modelTurn := None; interrupted := true |} |}.

(** A decoded chunk of [n] frames at the playback rate. *)
Definition chunk (n : N) : AudioBuffer :=
  {| ab_length := n; ab_sampleRate := 24000 |}.

(** Enter pressed once; the microphone is granted, the session (object 1)
    opens and its promise resolves. *)
Definition connected : State :=
  run (init true)
    [KeyDown (js "Enter"); MicrophoneGranted 0; SessionOpened 1;
     SessionResolved 1].

(** What the callbacks of that session captured. *)
Definition firstSession : Session :=
  {| transport := TOpen;
     captured := {| r_status := IDLE; r_config := initialConfig |};
     withVisual := false; sessionIsMouseMode := true;
     sessionInstruction := Some MOUSE_SYSTEM_INSTRUCTION |}.

(** Three chunks of 0.5 s, 1 s and 0.25 s received at 0.5 s, 0.6 s and
    0.7 s of the output clock, each decoded before the next arrives. *)
Definition threeChunks : State :=
  run connected
    [SessionMessage 1 (audioMessage (js "AAAA")) 0.5; Decoded 4 (chunk 12000);
     SessionMessage 1 (audioMessage (js "AAAA")) 0.6; Decoded 6 (chunk 24000);
     SessionMessage 1 (audioMessage (js "AAAA")) 0.7; Decoded 8 (chunk 6000)].

(** A chunk whose message arrives at 0.5 s and the interruption signal that
    arrives at 0.75 s, before the chunk is decoded. *)
Definition interruptedTurn : State :=
  run connected
    [SessionMessage 1 (audioMessage (js "AAAA")) 0.5;
     SessionMessage 1 interruptionSignal 0.75].

(** A tool call that switches the mouse mode off. *)
Definition mouseOff : FunctionCall :=
  {| fc_id := js "call-1"; fc_name := js "set_mouse_control";
     fc_enabled := false |}.

Definition mouseOffMessage : LiveServerMessage :=
  {| toolCall := Some [mouseOff]; serverContent := None |}.

(** The interruption signal in a message that also carries an audio part,
    and in one that also carries the tool call. *)
Definition interruptedAudio : LiveServerMessage :=
  {| toolCall := None;
     serverContent :=
       Some {| modelTurn :=
                 Some [{| text := None; inlineData := Some (js "AAAA") |}];
               interrupted := true |} |}.

Definition interruptedToolCall : LiveServerMessage :=
  {| toolCall := Some [mouseOff];
     serverContent := Some {| modelTurn := None; interrupted := true |} |}.

(** Enter pressed twice before the first connection opened. *)
Definition doubleEnter : list Event :=
  [KeyDown (js "Enter"); KeyDown (js "Enter");
   MicrophoneGranted 0; MicrophoneGranted 1;
   SessionOpened 2; SessionOpened 3].

Definition moveText : jsstring :=
  jsq "{'action':'move','direction':'left','value':10,'application':''}".

Definition moveCommand : json :=
  JObject [(js "action", JString (js "move"));
           (js "direction", JString (js "left"));
           (js "value", JNumber 10);
           (js "application", JString [])].

(** The camera button clicked twice before the first acquisition resolved. *)
Definition rapidToggle : State :=
  run (init true) [ClickCamera; ClickCamera].

(** ** Notions used by the further properties *)

(** No session exists, none is being set up and nothing was sent, in a
    browser without [getUserMedia]. *)
Definition sessionless (s : State) : Prop :=
  hasGetUserMedia s = false ∧ status s = IDLE ∧ transports s = ∅ ∧
  pendingStarts s = ∅ ∧ awaitingSession s = ∅ ∧ sessionRef s = None ∧
  sessionPromiseRef s = None ∧ processors s = ∅ ∧ outbox s = [].

(** The two capture flags are not set together. *)
Definition oneCapture (s : State) : Prop :=
  isCameraEnabled (config s) && isScreenSharing (config s) = false.

(** The only interval that runs is the one held in [frameIntervalRef], and
    it runs exactly while the video element has a stream. *)
Definition oneSampler (s : State) : Prop :=
  dom (intervals s) =
    match frameIntervalRef s with
    | Some id => {[id]}
    | None => ∅
    end ∧
  (is_Some (videoSrcObject s) ↔ is_Some (frameIntervalRef s)).

(** How the acquisitions in flight, the request counter and the streams
    relate: a pending acquisition was allocated and its sequence number is
    at most the counter; at most one pending acquisition carries the
    counter's value, and while one does the video element is empty; a stream
    that was attached is stopped or still attached; the attached stream is
    not stopped; streams were allocated. *)
Definition mediaOrder (s : State) : Prop :=
  (∀ k t, pendingMedia s !! k = Some t →
     k < fresh s ∧ mt_sequence t ≤ mediaRequestRef s) ∧
  (∀ k k' t t', pendingMedia s !! k = Some t → pendingMedia s !! k' = Some t' →
     mt_sequence t = mediaRequestRef s → mt_sequence t' = mediaRequestRef s →
     k = k') ∧
  (∀ k t, pendingMedia s !! k = Some t → mt_sequence t = mediaRequestRef s →
     videoSrcObject s = None) ∧
  (∀ x, x ∈ watchedStreams s →
     (x ∈ stoppedStreams s) ∨ videoSrcObject s = Some x) ∧
  (∀ x, videoSrcObject s = Some x → (x ∉ stoppedStreams s) ∧ x < fresh s) ∧
  (∀ x, x ∈ stoppedStreams s → x < fresh s).

(** The sampler [id] was allocated and, while it exists, runs with the
    render [r]. *)
Definition samplerIs (id : nat) (r : Render) (s : State) : Prop :=
  id < fresh s ∧ ∀ r', intervals s !! id = Some r' → r' = r.

Definition intervalsAllocated (s : State) : Prop :=
  ∀ id, is_Some (intervals s !! id) → id < fresh s.

(** The audio nodes that are wired, and the pair the component holds, were
    allocated. *)
Definition nodesAllocated (s : State) : Prop :=
  (∀ node, node ∈ connectedNodes s → node < fresh s) ∧
  (∀ source processor, audioNodesRef s = Some (source, processor) →
     source < fresh s ∧ processor < fresh s).

(** The node was allocated and is not wired. *)
Definition disconnected (node : nat) (s : State) : Prop :=
  node < fresh s ∧ node ∉ connectedNodes s.

(** [onended] of each of the sources, in the order of the list. *)
Definition endAll (sources : list nat) (s : State) : State :=
  fold_left (fun s source => onended source s) sources s.

(** The instruction [applyMouseMode] selects. *)
Definition instructionFor (enabled : bool) : jsstring :=
  if enabled then MOUSE_SYSTEM_INSTRUCTION else NORMAL_SYSTEM_INSTRUCTION.

(** The status values under which [applyMouseMode] restarts the session. *)
Definition live (x : SessionStatus) : Prop := x = CONNECTED ∨ x = CONNECTING.

(** The capture a session started with [withVisual] asks for when it
    opens. *)
Definition visualKind (r : Render) : MediaKind :=
  if isScreenSharing (r_config r) then Screen else Camera.

(** The camera button clicked once while idle, and the acquisition it
    waits for. *)
Definition cameraRequested : State := run (init true) [ClickCamera].

Definition cameraRequest : MediaTask :=
  {| mt_kind := Camera; mt_sequence := 1;
     mt_render := {| r_status := IDLE; r_config := initialConfig |} |}.

(** The mouse mode switched during the call, 150 ms ago. *)
Definition modeSwitched : State := run connected [ClickMouseMode; Elapse 150].

(** ** Reasoning about cells *)

Ltac cells :=
  cbv [status config isUserTalking isModelTalking lastCommand isMutedRef
       sessionRef sessionPromiseRef audioContextRef audioNodesRef
       nextStartTimeRef audioSourcesRef videoSrcObject frameIntervalRef
       mediaRequestRef keydownRender now fresh hasGetUserMedia transports
       connectedNodes processors started stoppedSources stoppedStreams
       watchedStreams intervals timers outbox pendingStarts awaitingSession
       pendingDecodes pendingMedia
       setStatus setConfig setIsUserTalking setIsModelTalking setLastCommand
       set_isMutedRef set_sessionRef set_sessionPromiseRef set_audioContextRef
       set_audioNodesRef set_nextStartTimeRef set_audioSourcesRef
       set_videoSrcObject set_frameIntervalRef set_mediaRequestRef
       set_keydownRender set_now set_fresh set_transports set_connectedNodes
       set_processors set_started set_stoppedSources set_stoppedStreams
       set_watchedStreams set_intervals set_timers set_outbox
       set_pendingStarts set_awaitingSession set_pendingDecodes
       set_pendingMedia
       updateConfig closeSession disconnectNode stopSources stopTracks
       clearInterval setTimeout send currentRender
       view refs browser tasks
       v_status v_config v_isUserTalking v_isModelTalking v_lastCommand
       r_isMutedRef r_sessionRef r_sessionPromiseRef r_audioContextRef
       r_audioNodesRef r_nextStartTimeRef r_audioSourcesRef r_videoSrcObject
       r_frameIntervalRef r_mediaRequestRef r_keydownRender
       b_now b_fresh b_hasGetUserMedia b_transports b_connectedNodes
       b_processors b_started b_stoppedSources b_stoppedStreams
       b_watchedStreams b_intervals b_timers b_outbox
       t_pendingStarts t_awaitingSession t_pendingDecodes t_pendingMedia] in *.

(** ** The command interpreter *)

Lemma tryCatch_normal {A} (body : completion A) (a : A) :
  ∃ a', tryCatch body (fun _ => Normal a) = Normal a'.
Proof. destruct body; simpl; eauto. Qed.

Lemma onmessage_text_total mouse m s :
  ∃ s', onmessage_text mouse m s = Normal s'.
Proof.
  unfold onmessage_text.
  destruct mouse; [|eauto].
  destruct (parts m) as [ps|]; [|eauto].
  destruct (find hasText ps) as [[[t|] ?]|]; eauto.
  destruct (isJsonLike t); eauto using tryCatch_normal.
Qed.

(** What the text branch does to the state: nothing, or one publication
    together with its expiry timer. *)
Lemma onmessage_text_cases mouse m s :
  onmessage_text mouse m s = Normal s ∨
  ∃ cmd, hasAction cmd = true ∧
    onmessage_text mouse m s =
      Normal (setTimeout 3000 ExpireCommand (setLastCommand (Some cmd) s)).
Proof.
  unfold onmessage_text.
  destruct mouse; [|eauto].
  destruct (parts m) as [ps|]; [|eauto].
  destruct (find hasText ps) as [[[t|] ?]|]; eauto.
  destruct (isJsonLike t); eauto.
  unfold publishCommand.
  destruct (matchBraceSpan t) as [jsonMatch|]; simpl; eauto.
  destruct (JSON_parse jsonMatch) as [cmd|]; simpl; eauto.
  destruct (hasAction cmd) eqn:Hcmd; simpl; eauto.
Qed.

(** C6.  In a command-mode session the text
    [{"action":"move","direction":"left","value":10,"application":""}]
    publishes the command with exactly these four members (and arms its
    expiry), the texts [not json] and [{"action":"none"}] publish nothing and
    leave the state as it was, and for every message, mode and state the text
    branch completes normally: a failed parse never throws into the message
    handler. *)
Theorem command_parsing :
  (∀ s,
     onmessage_text true
       (textMessage
          (jsq "{'action':'move','direction':'left','value':10,'application':''}")) s
     = Normal
         (setTimeout 3000 ExpireCommand
            (setLastCommand
               (Some (JObject [(js "action", JString (js "move"));
                               (js "direction", JString (js "left"));
                               (js "value", JNumber 10);
                               (js "application", JString (js ""))])) s))) ∧
  (∀ s, onmessage_text true (textMessage (js "not json")) s = Normal s) ∧
  (∀ s, onmessage_text true (textMessage (jsq "{'action':'none'}")) s = Normal s) ∧
  (∀ mouse m s, ∃ s', onmessage_text mouse m s = Normal s').
Proof.
  split; [|split; [|split]].
  - intros s. reflexivity.
  - intros s. reflexivity.
  - intros s. reflexivity.
  - apply onmessage_text_total.
Qed.

(** ** Rendering after a callback *)

Lemma view_commit a b : view (commit a b) = view b.
Proof. unfold commit. case_bool_decide; reflexivity. Qed.

Lemma browser_commit a b : browser (commit a b) = browser b.
Proof. unfold commit. case_bool_decide; reflexivity. Qed.

Lemma tasks_commit a b : tasks (commit a b) = tasks b.
Proof. unfold commit. case_bool_decide; reflexivity. Qed.

Lemma isMutedRef_commit a b : isMutedRef (commit a b) = isMuted (config b).
Proof. unfold commit. case_bool_decide; reflexivity. Qed.

Lemma outbox_commit a b : outbox (commit a b) = outbox b.
Proof. unfold outbox. by rewrite browser_commit. Qed.

Lemma status_commit a b : status (commit a b) = status b.
Proof. unfold status. by rewrite view_commit. Qed.

(** ** The microphone frame handler *)

(** C10.  With the mute ref set the frame handler sends nothing (the outbox
    is unchanged, no silent frame is substituted) and sets "user talking" to
    false; unmuted it sends exactly the encoded frame to its session; so a
    frame is sent only when unmuted.  The same holds for the event as the
    browser delivers it, and after every event the mute ref equals the mute
    flag of the configuration. *)
Theorem muted_microphone (sid : nat) (inputData : list float) (s : State) :
  let s' := onaudioprocess sid inputData s in
  (isMutedRef s = true → outbox s' = outbox s ∧ isUserTalking s' = false) ∧
  (isMutedRef s = false →
     outbox s' = (sid, RealtimeAudio (createBlob inputData)) :: outbox s) ∧
  (outbox s' ≠ outbox s → isMutedRef s = false) ∧
  (∀ processor, isMutedRef s = true →
     outbox (step s (AudioProcess processor inputData)) = outbox s) ∧
  (∀ e, isMutedRef (step s e) = isMuted (config (step s e))).
Proof.
  unfold onaudioprocess. split; [|split; [|split; [|split]]].
  - intros ->. split; reflexivity.
  - intros ->. reflexivity.
  - destruct (isMutedRef s); [|done]. intros []. reflexivity.
  - intros processor Hmuted. unfold step. rewrite outbox_commit. simpl.
    destruct (processors s !! processor); [|done].
    case_bool_decide; [|done].
    unfold onaudioprocess. by rewrite Hmuted.
  - intros e. unfold step. rewrite isMutedRef_commit.
    unfold config. by rewrite view_commit.
Qed.

(** ** Camera and screen acquisition *)

(** C9.  When a camera (screen) acquisition fails, the catch block sets the
    camera (screen) flag to false and changes nothing else: the other capture
    flag and the rest of the configuration, the status, the talking
    indicators and the command, every ref (the session, the playback clock
    and the active sources among them) and every browser object (transports,
    nodes, sources, streams, timers) are as before; of the suspended calls
    only the failed one is gone. *)
Theorem acquisition_failure_is_local (k : nat) (t : MediaTask) (s : State) :
  pendingMedia s !! k = Some t →
  let s' := toggle_rejected k s in
  config s' =
    match mt_kind t with
    | Camera => withCamera false (config s)
    | Screen => withScreen false (config s)
    end ∧
  match mt_kind t with
  | Camera =>
      isCameraEnabled (config s') = false ∧
      isScreenSharing (config s') = isScreenSharing (config s)
  | Screen =>
      isScreenSharing (config s') = false ∧
      isCameraEnabled (config s') = isCameraEnabled (config s)
  end ∧
  status s' = status s ∧
  isUserTalking s' = isUserTalking s ∧
  isModelTalking s' = isModelTalking s ∧
  lastCommand s' = lastCommand s ∧
  refs s' = refs s ∧
  browser s' = browser s ∧
  pendingStarts s' = pendingStarts s ∧
  awaitingSession s' = awaitingSession s ∧
  pendingDecodes s' = pendingDecodes s ∧
  pendingMedia s' = delete k (pendingMedia s).
Proof.
  intros Hk s'. subst s'. unfold toggle_rejected. rewrite Hk.
  unfold acquisitionFailed. destruct (mt_kind t); repeat split.
Qed.

Lemma acquisition_failure_witness :
  let s := step (init true) ClickCamera in
  let s' := toggle_rejected 0 s in
  isCameraEnabled (config s') = false ∧ status s' = status s ∧
  refs s' = refs s ∧ browser s' = browser s.
Proof.
  pose proof (acquisition_failure_is_local 0
    {| mt_kind := Camera; mt_sequence := 1; mt_render := currentRender (init true) |}
    (step (init true) ClickCamera) eq_refl) as H.
  simpl in H. intros s s'. subst s s'. repeat split; apply H.
Defined.

(** ** Interruption *)

Lemma interrupt_resets (s : State) : playbackReset s (interrupt s).
Proof.
  unfold playbackReset, interrupt. cells.
  split; [set_solver|]. by repeat split.
Qed.

Lemma resume_interrupted (k : nat) (audioBuffer : AudioBuffer) (s : State) :
  pendingDecodes s !! k = Some {| dt_interrupted := true |} →
  playbackReset s (onmessage_resume k audioBuffer s) ∧
  fresh s ∈ stoppedSources (onmessage_resume k audioBuffer s).
Proof.
  intros Hk. unfold onmessage_resume. rewrite Hk. simpl.
  unfold playbackReset, interrupt, schedule. cells.
  split; [|set_solver]. split; [set_solver|]. by repeat split.
Qed.

(** C2.  The claim fails on the code.  A message that carries the
    interruption signal alone is handled as the claim says, in every state:
    every source of the active set is stopped, the set is emptied,
    next-start-time is zeroed and "model talking" is cleared.  But the block
    that does this stands after the [await] of the audio branch and after the
    [return] of the tool-call branch.  With three chunks playing, a message
    that carries the signal together with an audio part stops nothing: the
    three sources stay in the active set, next-start-time stays at 2.25 and
    the model is still shown talking; if the decode then fails the handler
    ends there and the reset never happens, and only if it succeeds is the
    playback reset, after the new chunk was started.  A message that carries
    the signal together with the [set_mouse_control] call stops nothing
    either. *)
Theorem interruption_behind_the_decode :
  (∀ sid x m clock s,
     isInterrupted m = true → mouseControlCall m = None → audioData m = None →
     playbackReset s (onmessage sid x m clock s)) ∧
  (let s1 := step threeChunks (SessionMessage 1 interruptedAudio 0.75) in
   let failed := step s1 (DecodeFailed 10) in
   let decoded := step s1 (Decoded 10 (chunk 6000)) in
   (audioSourcesRef s1 = {[5; 7; 9]} ∧ stoppedSources s1 = ∅ ∧
    nextStartTimeRef s1 = 2.25%float ∧ isModelTalking s1 = true ∧
    pendingDecodes s1 !! 10 = Some {| dt_interrupted := true |}) ∧
   (audioSourcesRef failed = {[5; 7; 9]} ∧ stoppedSources failed = ∅ ∧
    nextStartTimeRef failed = 2.25%float ∧ isModelTalking failed = true ∧
    pendingDecodes failed = ∅) ∧
   (map sc_source (started decoded) = [11; 9; 7; 5] ∧
    stoppedSources decoded = {[5; 7; 9; 11]} ∧ audioSourcesRef decoded = ∅ ∧
    nextStartTimeRef decoded = 0%float ∧ isModelTalking decoded = false)) ∧
  (let s1 := step threeChunks (SessionMessage 1 interruptedToolCall 0.75) in
   audioSourcesRef s1 = {[5; 7; 9]} ∧ stoppedSources s1 = ∅ ∧
   nextStartTimeRef s1 = 2.25%float ∧ isModelTalking s1 = true ∧
   status s1 = CONNECTED).
Proof.
  split; [|split].
  - intros sid x m clock s Hint Hcall Haudio.
    unfold onmessage. rewrite Hcall, Haudio, Hint.
    destruct (onmessage_text_cases (sessionIsMouseMode x) m s)
      as [->|(cmd & _ & ->)]; simpl.
    + apply interrupt_resets.
    + unfold playbackReset, interrupt. cells.
      split; [set_solver|]. by repeat split.
  - vm_compute. by repeat split.
  - vm_compute. by repeat split.
Qed.

(** ** Teardown *)

(** [stopSession] as one record: what each cell holds afterwards. *)
Lemma stopSession_eq s :
  stopSession s =
  {| view :=
       {| v_status := IDLE; v_config := withCapture false false (config s);
          v_isUserTalking := false; v_isModelTalking := false;
          v_lastCommand := lastCommand s |};
     refs :=
       {| r_isMutedRef := isMutedRef s; r_sessionRef := None;
          r_sessionPromiseRef := None; r_audioContextRef := audioContextRef s;
          r_audioNodesRef := audioNodesRef s;
          r_nextStartTimeRef := nextStartTimeRef s;
          r_audioSourcesRef := ∅; r_videoSrcObject := None;
          r_frameIntervalRef := None; r_mediaRequestRef := mediaRequestRef s;
          r_keydownRender := keydownRender s |};
     browser :=
       {| b_now := now s; b_fresh := fresh s;
          b_hasGetUserMedia := hasGetUserMedia s;
          b_transports :=
            match sessionRef s with
            | Some sid => alter (withTransport TClosed) sid (transports s)
            | None => transports s
            end;
          b_connectedNodes :=
            match audioNodesRef s with
            | Some (source, processor) =>
                connectedNodes s ∖ {[processor]} ∖ {[source]}
            | None => connectedNodes s
            end;
          b_processors := processors s; b_started := started s;
          b_stoppedSources := stoppedSources s ∪ audioSourcesRef s;
          b_stoppedStreams :=
            match videoSrcObject s with
            | Some stream => stoppedStreams s ∪ {[stream]}
            | None => stoppedStreams s
            end;
          b_watchedStreams := watchedStreams s;
          b_intervals :=
            match frameIntervalRef s with
            | Some id => delete id (intervals s)
            | None => intervals s
            end;
          b_timers := timers s; b_outbox := outbox s |};
     tasks := tasks s |}.
Proof.
  unfold stopSession.
  destruct s as [? [? sr ? ? an ? ? vo fi ? ?] ? ?].
  destruct sr, an as [[? ?]|], vo, fi; reflexivity.
Qed.

(** Rewrite teardown into its record and read the cells. *)
Ltac torn := rewrite ?stopSession_eq; cells.

Lemma stopSession_idempotent s : stopSession (stopSession s) = stopSession s.
Proof.
  rewrite (stopSession_eq (stopSession s)). torn.
  f_equal. f_equal.
  - destruct (r_audioNodesRef _) as [[]|]; set_solver.
  - set_solver.
Qed.

Lemma stopSession_tornDown s : tornDown s (stopSession s).
Proof.
  unfold tornDown. torn. split_and!; try done.
  - intros sid x -> Hx. by rewrite lookup_alter_eq, Hx.
  - intros source processor ->. set_solver.
  - set_solver.
  - intros stream ->. set_solver.
  - intros id ->. apply lookup_delete_eq.
Qed.

Lemma stopSession_closeSession s sid :
  sessionRef s = Some sid → stopSession (closeSession sid s) = stopSession s.
Proof.
  intros Href. torn. rewrite Href. f_equal. f_equal.
  rewrite alter_alter_eq. by apply alter_ext.
Qed.

Lemma stopSession_set_isMutedRef m s :
  stopSession (set_isMutedRef m s) = set_isMutedRef m (stopSession s).
Proof. rewrite !stopSession_eq. reflexivity. Qed.

Lemma stopSession_set_keydownRender r s :
  stopSession (set_keydownRender r s) = set_keydownRender r (stopSession s).
Proof. rewrite !stopSession_eq. reflexivity. Qed.

Lemma stopSession_commit a s :
  stopSession (commit a (stopSession s)) = commit a (stopSession s).
Proof.
  unfold commit. case_bool_decide.
  - by rewrite stopSession_set_isMutedRef, stopSession_idempotent.
  - by rewrite stopSession_set_isMutedRef, stopSession_set_keydownRender,
      stopSession_idempotent.
Qed.

Lemma closeSession_stopSession s sid :
  sessionRef s = Some sid → closeSession sid (stopSession s) = stopSession s.
Proof.
  intros Href. rewrite stopSession_eq. cells. rewrite Href.
  f_equal. f_equal. rewrite alter_alter_eq. by apply alter_ext.
Qed.

Lemma closeSession_commit a s sid :
  closeSession sid (commit a s) = commit a (closeSession sid s).
Proof. unfold commit. cells. case_bool_decide; reflexivity. Qed.

Lemma transports_stopSession_is_Some s sid :
  is_Some (transports s !! sid) → is_Some (transports (stopSession s) !! sid).
Proof.
  torn. destruct (r_sessionRef _); [|done].
  intros H; apply lookup_alter_is_Some; done.
Qed.

Lemma commit_commit a b t : commit (commit a t) (commit b t) = commit b t.
Proof.
  unfold commit at 1. rewrite !status_commit, bool_decide_eq_true_2 by done.
  unfold config. rewrite view_commit.
  unfold commit. case_bool_decide; reflexivity.
Qed.

(** C4.  Teardown is idempotent.  A second [stopSession], or any number of
    further ones, returns the state of the first: nothing more is closed,
    disconnected, stopped, released or cleared.  That state is the torn-down
    one: the session of [sessionRef] closed and the ref empty, the nodes of
    [audioNodesRef] without connections, every active source stopped and the
    set empty, the stream of the video element stopped and detached, the
    sampler cleared, both talking indicators and both capture flags off,
    status Idle.  Every trigger runs this same function: the call button and
    the Escape and Enter keys while connected, the transport's error callback,
    its close callback; and once torn down, error and close events of that
    session, in any number and order, change nothing. *)
Theorem teardown_idempotent (s : State) :
  stopSession (stopSession s) = stopSession s ∧
  tornDown s (stopSession s) ∧
  (∀ n, Nat.iter n stopSession (stopSession s) = stopSession s) ∧
  (∀ sid, is_Some (transports s !! sid) →
     handle (SessionError sid) s = stopSession s) ∧
  (status s = CONNECTED → handle ClickCall s = stopSession s) ∧
  (r_status (keydownRender s) = CONNECTED →
     handle (KeyDown (js "Escape")) s = stopSession s ∧
     handle (KeyDown (js "Enter")) s = stopSession s) ∧
  (∀ sid, sessionRef s = Some sid → is_Some (transports s !! sid) →
     handle (SessionClosed sid) s = stopSession s ∧
     ∀ es, Forall (endsSession sid) es →
       run (commit s (stopSession s)) es = commit s (stopSession s)).
Proof.
  split; [apply stopSession_idempotent|].
  split; [apply stopSession_tornDown|].
  split; [|split; [|split; [|split]]].
  - induction n as [|n IH]; [done|]. simpl. rewrite IH. apply stopSession_idempotent.
  - intros sid [x Hx]. simpl. by rewrite Hx.
  - intros Hst. simpl. by rewrite bool_decide_eq_true_2.
  - intros Hst. simpl. unfold handleKeyDown. rewrite Hst. split; reflexivity.
  - intros sid Href [x Hx]. split.
    + simpl. rewrite Hx. by apply stopSession_closeSession.
    + intros es Hes. induction Hes as [|e es He _ IH]; [done|].
      simpl. unfold run in IH.
      assert (is_Some (transports (commit s (stopSession s)) !! sid)) as [y Hy].
      { unfold transports. rewrite browser_commit.
        apply transports_stopSession_is_Some. by exists x. }
      assert (step (commit s (stopSession s)) e = commit s (stopSession s)) as ->; [|done].
      unfold step. destruct He as [-> | ->]; simpl; rewrite Hy.
      * rewrite stopSession_commit. apply commit_commit.
      * rewrite closeSession_commit, closeSession_stopSession by done.
        rewrite stopSession_commit. apply commit_commit.
Qed.

(** ** Status *)

(** [stopMediaTracks] as one record. *)
Lemma stopMediaTracks_eq s :
  stopMediaTracks s =
  {| view := view s;
     refs :=
       {| r_isMutedRef := isMutedRef s; r_sessionRef := sessionRef s;
          r_sessionPromiseRef := sessionPromiseRef s;
          r_audioContextRef := audioContextRef s;
          r_audioNodesRef := audioNodesRef s;
          r_nextStartTimeRef := nextStartTimeRef s;
          r_audioSourcesRef := audioSourcesRef s; r_videoSrcObject := None;
          r_frameIntervalRef := None; r_mediaRequestRef := mediaRequestRef s;
          r_keydownRender := keydownRender s |};
     browser :=
       {| b_now := now s; b_fresh := fresh s;
          b_hasGetUserMedia := hasGetUserMedia s;
          b_transports := transports s;
          b_connectedNodes := connectedNodes s;
          b_processors := processors s; b_started := started s;
          b_stoppedSources := stoppedSources s;
          b_stoppedStreams :=
            match videoSrcObject s with
            | Some stream => stoppedStreams s ∪ {[stream]}
            | None => stoppedStreams s
            end;
          b_watchedStreams := watchedStreams s;
          b_intervals :=
            match frameIntervalRef s with
            | Some id => delete id (intervals s)
            | None => intervals s
            end;
          b_timers := timers s; b_outbox := outbox s |};
     tasks := tasks s |}.
Proof.
  unfold stopMediaTracks.
  destruct s as [? [? ? ? ? ? ? ? vo fi ? ?] ? ?]. destruct vo, fi; reflexivity.
Qed.

(** Unfold the callbacks, except the two teardown functions. *)
Ltac handlers :=
  unfold handleKeyDown, startSession, toggleCamera, toggleScreenShare,
    toggleMouseMode, applyMouseMode, fire, sampleFrame, startSession_connect,
    startSession_catch, startSession_resolved, startSession_rejected, onopen,
    onmessage_audio, onmessage_interrupted, interrupt,
    onmessage_resume, schedule, onmessage_abort, onaudioprocess, onended,
    toggle_resolved, toggle_rejected, acquired, acquisitionFailed,
    startMediaStreaming, awaitMedia, onTrackEnded in *.

(** Unfold and split on every branch. *)
Ltac cases := repeat (progress (try handlers; repeat case_match)).

(** Replace the teardown functions by their records. *)
Ltac teardowns :=
  repeat match goal with
  | |- context [stopSession ?s] => rewrite (stopSession_eq s)
  | |- context [stopMediaTracks ?s] => rewrite (stopMediaTracks_eq s)
  end.



Lemma tornDown_commit a s t : tornDown s t → tornDown s (commit a t).
Proof. unfold tornDown, commit. case_bool_decide; cells; done. Qed.






(** ** Playback scheduling *)

Lemma nextStartTimeRef_commit a b : nextStartTimeRef (commit a b) = nextStartTimeRef b.
Proof. unfold commit. case_bool_decide; reflexivity. Qed.

Lemma started_commit a b : started (commit a b) = started b.
Proof. unfold started. by rewrite browser_commit. Qed.

(** C1.  The claim fails on the code.  When a chunk is decoded right after
    its message was handled, it is started at
    [Math.max](next-start-time, clock) and next-start-time becomes that
    start plus the chunk's duration, as the claim says.  But the maximum is
    taken before the [await] of the decode and the chunk is started after
    it, at whatever next-start-time holds by then.  A chunk whose message
    arrives at 0.5 s, followed by the interruption signal at 0.75 s and only
    then by the end of its decode, is started at 0: before the clock of its
    own message and before the clock of the interruption, where the claim
    requires the maximum of next-start-time and the clock, which is 0.75 or
    later.  The chunk of the interrupted turn is in the active set, nothing
    stopped it, and the model is not shown talking while it plays. *)
Theorem chunk_decoded_after_interruption :
  (∀ s clock flag audioBuffer,
     let s1 := onmessage_audio clock flag s in
     let s2 := schedule audioBuffer s1 in
     started s2 =
       {| sc_source := fresh s1;
          sc_start := Math_max (nextStartTimeRef s) clock;
          sc_duration := duration audioBuffer |} :: started s ∧
     nextStartTimeRef s2 =
       (Math_max (nextStartTimeRef s) clock + duration audioBuffer)%float) ∧
  (let s := step interruptedTurn (Decoded 4 (chunk 12000)) in
   (pendingDecodes interruptedTurn !! 4 = Some {| dt_interrupted := false |} ∧
    nextStartTimeRef interruptedTurn = 0%float) ∧
   started s = [{| sc_source := 5; sc_start := 0; sc_duration := 0.5 |}] ∧
   (PrimFloat.ltb 0 0.5 = true ∧
    Math_max (nextStartTimeRef interruptedTurn) 0.75 = 0.75%float) ∧
   (audioSourcesRef s = {[5]} ∧ stoppedSources s = ∅ ∧
    isModelTalking s = false ∧ nextStartTimeRef s = 0.5%float)).
Proof.
  split.
  - intros s clock flag audioBuffer. split; reflexivity.
  - vm_compute. by repeat split.
Qed.

(** ** Command expiry *)

(** Close a goal of the form [keeps id t _]. *)
Ltac kept :=
  split;
    [ rewrite ?lookup_insert_ne, ?lookup_delete_ne by (lia || congruence);
      assumption
    | lia ].

Lemma keeps_onmessage id t sid x m clock s :
  keeps id t s → keeps id t (onmessage sid x m clock s).
Proof.
  unfold keeps. intros [Ht Hid]. unfold onmessage.
  destruct (mouseControlCall m).
  - cases; teardowns; cells; kept.
  - destruct (onmessage_text_cases (sessionIsMouseMode x) m s) as [->|(cmd & _ & ->)];
      cases; teardowns; cells; kept.
Qed.

Lemma keeps_handle id t e s :
  e ≠ TimerFires id → keeps id t s → keeps id t (handle e s).
Proof.
  intros He Hk.
  destruct e; cbn [handle]; try (by repeat case_match; try apply keeps_onmessage).
  all: destruct Hk as [Ht Hid]; unfold keeps.
  all: cases; teardowns; cells; kept.
Qed.

Lemma keeps_step id t e s :
  e ≠ TimerFires id → keeps id t s → keeps id t (step s e).
Proof.
  intros He Hk. unfold step, keeps, timers, fresh.
  rewrite browser_commit. by apply keeps_handle.
Qed.

Lemma keeps_run id t es s :
  Forall (λ e, e ≠ TimerFires id) es → keeps id t s → keeps id t (run s es).
Proof.
  intros Hes. revert s. induction Hes as [|e es He _ IH]; intros s Hk; [done|].
  simpl. by apply IH, keeps_step.
Qed.

Lemma lastCommand_commit a b : lastCommand (commit a b) = lastCommand b.
Proof. unfold lastCommand. by rewrite view_commit. Qed.

Lemma timers_commit a b : timers (commit a b) = timers b.
Proof. unfold timers. by rewrite browser_commit. Qed.

Lemma fire_expiry id d s :
  timers s !! id = Some {| due := d; action := ExpireCommand |} →
  ((now s < d)%N →
     lastCommand (step s (TimerFires id)) = lastCommand s ∧
     timers (step s (TimerFires id)) !! id
       = Some {| due := d; action := ExpireCommand |}) ∧
  ((d <= now s)%N →
     lastCommand (step s (TimerFires id)) = None ∧
     timers (step s (TimerFires id)) !! id = None).
Proof.
  intros Ht. unfold step. rewrite lastCommand_commit, timers_commit.
  cbn [handle]. rewrite Ht. cbn [due action].
  split; intros Hd.
  - apply N.leb_gt in Hd. by rewrite Hd.
  - apply N.leb_le in Hd. rewrite Hd. cbn [fire]. cells.
    split; [done|apply lookup_delete_eq].
Qed.

(** C8.  Whatever the text branch does, it either leaves the state or
    publishes one command and arms one expiry timer, due 3000 ms after the
    time of publication.  When a message publishes a command, the command is
    the published one after the event and its timer is pending; over any
    later events other than that timer firing (further commands among them)
    the timer stays pending with the same due time, it cannot clear the
    command before that time, and when it fires at or after it the published
    command is cleared. *)
Theorem command_expiry :
  (∀ mouse m s,
     onmessage_text mouse m s = Normal s ∨
     ∃ cmd, hasAction cmd = true ∧
       onmessage_text mouse m s
         = Normal (setTimeout 3000 ExpireCommand (setLastCommand (Some cmd) s))) ∧
  (∀ (s : State) (sid : nat) (x : Session) (m : LiveServerMessage) (clock : float)
     (cmd : json),
     transports s !! sid = Some x →
     transport x = TOpen →
     mouseControlCall m = None →
     onmessage_text (sessionIsMouseMode x) m s
       = Normal (setTimeout 3000 ExpireCommand (setLastCommand (Some cmd) s)) →
     let expiry := {| due := (now s + 3000)%N; action := ExpireCommand |} in
     let s1 := step s (SessionMessage sid m clock) in
     lastCommand s1 = Some cmd ∧
     timers s1 !! fresh s = Some expiry ∧
     ∀ es, Forall (λ e, e ≠ TimerFires (fresh s)) es →
       let s2 := run s1 es in
       timers s2 !! fresh s = Some expiry ∧
       ((now s2 < now s + 3000)%N →
          lastCommand (step s2 (TimerFires (fresh s))) = lastCommand s2) ∧
       ((now s + 3000 <= now s2)%N →
          lastCommand (step s2 (TimerFires (fresh s))) = None)).
Proof.
  split; [apply onmessage_text_cases|].
  intros s sid x m clock cmd Hx Hopen Hcall Hpub expiry s1.
  assert (lastCommand s1 = Some cmd ∧ keeps (fresh s) expiry s1) as [Hcmd Hk].
  { subst s1. unfold step, keeps, timers, fresh.
    rewrite lastCommand_commit, browser_commit.
    cbn [handle]. rewrite Hx, Hopen. simpl. unfold onmessage.
    rewrite Hcall, Hpub.
    cases; cells; (split; [done|]); (split; [|lia]).
    all: rewrite ?lookup_insert_ne by lia; apply lookup_insert_eq. }
  split_and!; [done|apply Hk|].
  intros es Hes s2.
  destruct (keeps_run _ _ es s1 Hes Hk) as [Ht _].
  split_and!; [done|..]; intros Hd; by apply (fire_expiry _ _ _ Ht).
Qed.

(** ** Stale acquisitions *)

(** Close a goal of the form [discarded stream _]. *)
Ltac gone :=
  split_and!;
    try lia; try done; try set_solver;
    try (intros [= ?]; lia);
    try (intros ?; rewrite ?not_elem_of_cons; split_and?;
         first [ done | congruence | naive_solver ]).

Lemma discarded_onmessage stream sid x m clock s :
  discarded stream s → discarded stream (onmessage sid x m clock s).
Proof.
  unfold discarded. intros (Hid & Hst & Hv & Hout). unfold onmessage.
  destruct (mouseControlCall m).
  - cases; teardowns; cells; repeat case_match; gone.
  - destruct (onmessage_text_cases (sessionIsMouseMode x) m s) as [->|(cmd & _ & ->)];
      cases; teardowns; cells; repeat case_match; gone.
Qed.

Lemma discarded_handle stream e s :
  discarded stream s → discarded stream (handle e s).
Proof.
  intros Hd.
  destruct e; cbn [handle]; try (by repeat case_match; try apply discarded_onmessage).
  all: destruct Hd as (Hid & Hst & Hv & Hout); unfold discarded.
  all: cases; teardowns; cells; repeat case_match; gone.
Qed.

(** Close a goal of the form [allocated _]. *)
Ltac fresh_enough :=
  split;
    [ intros ? ?; simplify_eq; first [ lia | naive_solver lia ]
    | intros ? ?; rewrite ?elem_of_cons; intros ?; destruct_or?; simplify_eq;
      first [ lia | naive_solver lia ] ].

Lemma allocated_onmessage sid x m clock s :
  allocated s → allocated (onmessage sid x m clock s).
Proof.
  unfold allocated. intros (Hv & Hout). unfold onmessage.
  destruct (mouseControlCall m).
  - cases; teardowns; cells; repeat case_match; fresh_enough.
  - destruct (onmessage_text_cases (sessionIsMouseMode x) m s) as [->|(cmd & _ & ->)];
      cases; teardowns; cells; repeat case_match; fresh_enough.
Qed.

Lemma allocated_handle e s : allocated s → allocated (handle e s).
Proof.
  intros Hd.
  destruct e; cbn [handle]; try (by repeat case_match; try apply allocated_onmessage).
  all: destruct Hd as (Hv & Hout); unfold allocated.
  all: cases; teardowns; cells; repeat case_match; fresh_enough.
Qed.

Lemma discarded_commit stream a b : discarded stream b → discarded stream (commit a b).
Proof. unfold discarded, commit. case_bool_decide; cells; done. Qed.

Lemma allocated_commit a b : allocated b → allocated (commit a b).
Proof. unfold allocated, commit. case_bool_decide; cells; done. Qed.

Lemma discarded_run stream es s : discarded stream s → discarded stream (run s es).
Proof.
  revert s. induction es as [|e es IH]; intros s Hd; [done|].
  simpl. by apply IH, discarded_commit, discarded_handle.
Qed.

Lemma allocated_reachable b es : allocated (run (init b) es).
Proof.
  unfold run. rewrite <-fold_left_rev_right.
  induction (rev es) as [|e l IH]; simpl.
  - split; [done|]. intros ? ? H. cbn in H. by apply elem_of_nil in H.
  - by apply allocated_commit, allocated_handle.
Qed.

Lemma toggle_captures kind sequence r s k t :
  pendingMedia (awaitMedia kind sequence r s) !! k = Some t →
  pendingMedia s !! k = None →
  mt_kind t = kind ∧ mt_sequence t = sequence.
Proof.
  unfold awaitMedia. cells. intros Hk Hnone.
  destruct (decide (b_fresh (browser s) = k)) as [<-|Hne].
  - rewrite lookup_insert_eq in Hk. by simplify_eq.
  - rewrite lookup_insert_ne in Hk by done. congruence.
Qed.

(** C5.  A camera or screen call increments the media-request counter and
    the value its suspended acquisition carries is the incremented one.  In
    every reachable state, when an acquisition resolves after the counter has
    advanced past the value it carries, the acquired stream has its tracks
    stopped and nothing else happens: the video element keeps its source, the
    sampler, the configuration and the outbox are unchanged.  From then on,
    whatever events follow, the stream stays stopped, is never the source of
    the video element, and no still of it is ever sent. *)
Theorem stale_acquisition_discarded :
  (∀ r forceEnable s,
     mediaRequestRef (toggleCamera r forceEnable s) = S (mediaRequestRef s) ∧
     mediaRequestRef (toggleScreenShare r forceEnable s) = S (mediaRequestRef s) ∧
     ∀ k t, pendingMedia s !! k = None →
       (pendingMedia (toggleCamera r forceEnable s) !! k = Some t →
          mt_kind t = Camera ∧ mt_sequence t = S (mediaRequestRef s)) ∧
       (pendingMedia (toggleScreenShare r forceEnable s) !! k = Some t →
          mt_kind t = Screen ∧ mt_sequence t = S (mediaRequestRef s))) ∧
  (∀ b es0 k t,
     let s := run (init b) es0 in
     pendingMedia s !! k = Some t →
     mt_sequence t < mediaRequestRef s →
     let stream := fresh s in
     let s1 := step s (MediaGranted k) in
     stream ∈ stoppedStreams s1 ∧
     videoSrcObject s1 = videoSrcObject s ∧
     frameIntervalRef s1 = frameIntervalRef s ∧
     intervals s1 = intervals s ∧
     watchedStreams s1 = watchedStreams s ∧
     config s1 = config s ∧
     outbox s1 = outbox s ∧
     ∀ es, let s2 := run s1 es in
       stream ∈ stoppedStreams s2 ∧
       videoSrcObject s2 ≠ Some stream ∧
       ∀ sid, (sid, RealtimeImage (Some stream)) ∉ outbox s2).
Proof.
  split.
  - intros r forceEnable s. split_and!.
    + unfold toggleCamera. case_match; teardowns; handlers; cells; done.
    + unfold toggleScreenShare. case_match; teardowns; handlers; cells; done.
    + intros k t Hnone. split; intros Hk.
      * unfold toggleCamera in Hk. case_match.
        -- apply toggle_captures in Hk; [done|]. by rewrite stopMediaTracks_eq.
        -- rewrite stopMediaTracks_eq in Hk. cells. congruence.
      * unfold toggleScreenShare in Hk. case_match.
        -- apply toggle_captures in Hk; [done|]. by rewrite stopMediaTracks_eq.
        -- rewrite stopMediaTracks_eq in Hk. cells. congruence.
  - intros b es0 k t s Hk Hseq stream s1.
    assert (handle (MediaGranted k) s
            = stopTracks stream (set_fresh (S stream)
                (set_pendingMedia (delete k (pendingMedia s)) s))) as Hh.
    { cbn [handle]. unfold toggle_resolved. rewrite Hk. unfold acquired.
      cells. replace (mt_sequence t =? _) with false; [done|].
      symmetry. apply Nat.eqb_neq. unfold mediaRequestRef in Hseq. lia. }
    assert (discarded stream s1) as Hd.
    { subst s1. unfold step. apply discarded_commit. rewrite Hh.
      destruct (allocated_reachable b es0) as [Hv Hout]. fold s in Hv, Hout.
      unfold discarded. subst stream. cells. split_and!.
      - lia.
      - set_solver.
      - intros Heq. apply Hv in Heq. lia.
      - intros sid Hin. apply Hout in Hin. lia. }
    subst s1. unfold step.
    split_and!.
    + apply Hd.
    + unfold videoSrcObject, commit. case_bool_decide; rewrite Hh; done.
    + unfold frameIntervalRef, commit. case_bool_decide; rewrite Hh; done.
    + unfold intervals. rewrite browser_commit, Hh. done.
    + unfold watchedStreams. rewrite browser_commit, Hh. done.
    + unfold config. rewrite view_commit, Hh. done.
    + rewrite outbox_commit, Hh. done.
    + intros es. cbv zeta. destruct (discarded_run stream es _ Hd) as (_ & ? & ? & ?). done.
Qed.

(** ** The scenarios, evaluated *)

Example connected_state :
  status connected = CONNECTED ∧ sessionRef connected = Some 1 ∧
  transports connected !! 1 = Some firstSession ∧
  audioNodesRef connected = Some (2, 3) ∧ fresh connected = 4.
Proof. vm_compute. by repeat split. Qed.

Example three_chunks_schedule :
  map (fun c => (sc_source c, sc_start c, sc_duration c))
      (rev (started threeChunks))
    = [(5, 0.5%float, 0.5%float); (7, 1%float, 1%float);
       (9, 2%float, 0.25%float)] ∧
  nextStartTimeRef threeChunks = 2.25%float ∧
  audioSourcesRef threeChunks = {[5; 7; 9]} ∧
  isModelTalking threeChunks = true.
Proof. vm_compute. by repeat split. Qed.

(** Double arithmetic: 0.1 s and 0.2 s of audio end at 0.30000000000000004. *)
Example rounded_schedule :
  let s :=
    run connected
      [SessionMessage 1 (audioMessage (js "AAAA")) 0; Decoded 4 (chunk 2400);
       SessionMessage 1 (audioMessage (js "AAAA")) 0; Decoded 6 (chunk 4800);
       SessionMessage 1 (audioMessage (js "AAAA")) 0; Decoded 8 (chunk 2400)] in
  map sc_start (rev (started s))
    = [0%float; 0.1%float; 0.30000000000000004%float].
Proof. vm_compute. reflexivity. Qed.

Example Math_max_edges :
  Math_max 1 2 = 2%float ∧ Math_max 2 1 = 2%float ∧
  PrimFloat.is_nan (Math_max PrimFloat.nan 1) = true ∧
  PrimFloat.is_nan (Math_max 1 PrimFloat.nan) = true ∧
  PrimFloat.get_sign (Math_max PrimFloat.neg_zero 0) = false ∧
  PrimFloat.get_sign (Math_max 0 PrimFloat.neg_zero) = false.
Proof. vm_compute. by repeat split. Qed.

(** The talking indicator on frames of 4 samples: a mean magnitude of 0.02
    sets it, one of 0.005 clears it, and so does the empty frame, whose
    mean is NaN. *)
Example talking_indicator :
  isUserTalking (onaudioprocess 1 [0.02; -0.02; 0.02; -0.02]%float connected) = true ∧
  isUserTalking (onaudioprocess 1 [0.005; -0.005; 0.005; -0.005]%float connected) = false ∧
  isUserTalking (onaudioprocess 1 [] connected) = false.
Proof. vm_compute. by repeat split. Qed.

Example three_chunks_interrupted :
  let s := step threeChunks (SessionMessage 1 interruptionSignal 0.8) in
  stoppedSources s = {[5; 7; 9]} ∧ audioSourcesRef s = ∅ ∧
  nextStartTimeRef s = 0%float ∧ isModelTalking s = false.
Proof. vm_compute. by repeat split. Qed.

Lemma command_expiry_witness :
  let s1 := step connected (SessionMessage 1 (textMessage moveText) 0) in
  let s2 :=
    run s1 [SessionMessage 1 (textMessage (jsq "{'action':'scroll'}")) 0;
            Elapse 3000] in
  lastCommand s1 = Some moveCommand ∧
  timers s2 !! 4 = Some {| due := 3000; action := ExpireCommand |} ∧
  lastCommand (step s2 (TimerFires 4)) = None.
Proof.
  pose proof (proj2 command_expiry connected 1 firstSession
                (textMessage moveText) 0%float moveCommand
                eq_refl eq_refl eq_refl eq_refl) as (H1 & _ & H3).
  specialize (H3 [SessionMessage 1 (textMessage (jsq "{'action':'scroll'}")) 0%float;
                  Elapse 3000]).
  destruct H3 as (H3 & _ & H4); [by repeat constructor|].
  intros s1 s2. split_and!; [exact H1|exact H3|].
  apply H4. vm_compute. discriminate.
Defined.

Lemma stale_acquisition_witness :
  let s1 := step rapidToggle (MediaGranted 0) in
  2 ∈ stoppedStreams s1 ∧ videoSrcObject s1 = None ∧
  ∀ es, videoSrcObject (run s1 es) ≠ Some 2.
Proof.
  pose proof (proj2 stale_acquisition_discarded true [ClickCamera; ClickCamera] 0
                {| mt_kind := Camera; mt_sequence := 1;
                   mt_render := {| r_status := IDLE; r_config := initialConfig |} |}
                eq_refl) as H.
  cbv zeta in H. specialize (H ltac:(vm_compute; lia)).
  destruct H as (H1 & H2 & _ & _ & _ & _ & _ & H3).
  intros s1. split_and!; [exact H1|exact H2|].
  intros es. apply (H3 es).
Defined.

(** C3.  The claim fails on the code.  Enter is pressed while idle and the
    status becomes Connecting, which the key handler sees; Enter is pressed
    again before the connection opened, and since the status is not Connected
    the handler starts a second session.  Both transports open: two sessions
    are open at once.  The later promise takes [sessionRef], so a following
    stop closes that session only and the other stays open with the status
    Idle. *)
Theorem two_sessions_open :
  let s1 := step (init true) (KeyDown (js "Enter")) in
  let s := run (init true) doubleEnter in
  let s' := run s [SessionResolved 2; SessionResolved 3; KeyDown (js "Enter")] in
  (status s1 = CONNECTING ∧ r_status (keydownRender s1) = CONNECTING) ∧
  (transport <$> transports s !! 2 = Some TOpen ∧
   transport <$> transports s !! 3 = Some TOpen ∧
   size (openSessions s) = 2) ∧
  (status s' = IDLE ∧ sessionRef s' = None ∧
   transport <$> transports s' !! 2 = Some TOpen ∧
   transport <$> transports s' !! 3 = Some TClosed).
Proof. vm_compute. by repeat split. Qed.

(** * Further properties *)

(** ** Reachable states *)

(** A property of the initial state that every handler and every commit
    keep holds after any sequence of events. *)
Lemma reachable_ind (P : State → Prop) b :
  P (init b) →
  (∀ e s, P s → P (handle e s)) →
  (∀ a s, P s → P (commit a s)) →
  ∀ es, P (run (init b) es).
Proof.
  intros H0 Hh Hc es. unfold run. rewrite <-fold_left_rev_right.
  induction (rev es) as [|e l IH]; simpl; [done|].
  by apply Hc, Hh.
Qed.

Lemma pendingMedia_commit a b : pendingMedia (commit a b) = pendingMedia b.
Proof. unfold pendingMedia. by rewrite tasks_commit. Qed.

Lemma pendingStarts_commit a b : pendingStarts (commit a b) = pendingStarts b.
Proof. unfold pendingStarts. by rewrite tasks_commit. Qed.

Lemma transports_commit a b : transports (commit a b) = transports b.
Proof. unfold transports. by rewrite browser_commit. Qed.

Lemma fresh_commit a b : fresh (commit a b) = fresh b.
Proof. unfold fresh. by rewrite browser_commit. Qed.

Lemma mediaRequestRef_commit a b : mediaRequestRef (commit a b) = mediaRequestRef b.
Proof. unfold commit. case_bool_decide; reflexivity. Qed.

Lemma sessionPromiseRef_commit a b :
  sessionPromiseRef (commit a b) = sessionPromiseRef b.
Proof. unfold commit. case_bool_decide; reflexivity. Qed.

(** ** A browser without getUserMedia *)

Lemma sessionless_handle e s : sessionless s → sessionless (handle e s).
Proof.
  unfold sessionless. intros (Hm & Hst & Htr & Hps & Haw & Hr & Hp & Hpr & Hout).
  destruct e; cbn [handle]; cells.
  all: repeat (progress (try handlers; cells;
                         rewrite ?Hm, ?Htr, ?Hps, ?Haw, ?Hp, ?Hpr, ?lookup_empty;
                         cbn [negb]; repeat case_match)).
  all: teardowns; cells; rewrite ?Hr; try (split_and!; congruence).
  all: set_solver.
Qed.

Lemma sessionless_commit a s : sessionless s → sessionless (commit a s).
Proof. unfold sessionless, commit. case_bool_decide; cells; done. Qed.

(** X1.  In a browser without [navigator.mediaDevices.getUserMedia],
    [startSession] returns before it sets the status: whatever the user and
    the timers do, the status stays Idle, no session is created or awaited,
    and nothing is sent. *)
Theorem no_session_without_getUserMedia (es : list Event) :
  let s := run (init false) es in
  status s = IDLE ∧ transports s = ∅ ∧ pendingStarts s = ∅ ∧
  sessionRef s = None ∧ outbox s = [].
Proof.
  cbv zeta.
  assert (sessionless (run (init false) es)) as (_ & ? & ? & ? & _ & ? & _ & _ & ?).
  { apply reachable_ind;
      [by repeat split|apply sessionless_handle|apply sessionless_commit]. }
  done.
Qed.

(** ** Camera and screen capture *)

Ltac one :=
  cases; teardowns; cells;
  cbn [withCapture withCamera withScreen withMuted withMode isCameraEnabled
       isScreenSharing] in *;
  rewrite ?andb_false_r; try done.

Lemma oneCapture_onmessage sid x m clock s :
  oneCapture s → oneCapture (onmessage sid x m clock s).
Proof.
  unfold oneCapture. intros H. unfold onmessage.
  destruct (mouseControlCall m).
  - one.
  - destruct (onmessage_text_cases (sessionIsMouseMode x) m s)
      as [->|(cmd & _ & ->)]; one.
Qed.

Lemma oneCapture_handle e s : oneCapture s → oneCapture (handle e s).
Proof.
  intros H.
  destruct e; cbn [handle];
    try (by repeat case_match; try apply oneCapture_onmessage).
  all: unfold oneCapture in *; one.
Qed.

Lemma oneCapture_commit a s : oneCapture s → oneCapture (commit a s).
Proof. unfold oneCapture, commit. case_bool_decide; cells; done. Qed.

(** X2.  The configuration never has the camera flag and the
    screen-sharing flag set together: every update sets one of them only
    with the other cleared. *)
Theorem capture_flags_exclusive (b : bool) (es : list Event) :
  let s := run (init b) es in
  isCameraEnabled (config s) && isScreenSharing (config s) = false.
Proof.
  cbv zeta. change (oneCapture (run (init b) es)).
  apply reachable_ind; [done|apply oneCapture_handle|apply oneCapture_commit].
Qed.

Ltac sampled :=
  cases; unfold oneSampler; teardowns; cells; repeat case_match; simplify_eq;
  rewrite ?dom_insert_L, ?dom_delete_L;
  (split; [set_solver|]);
  rewrite <-?not_eq_None_Some in *; naive_solver.

Lemma oneSampler_onmessage sid x m clock s :
  oneSampler s → oneSampler (onmessage sid x m clock s).
Proof.
  intros [H1 H2]. unfold onmessage.
  destruct (mouseControlCall m).
  - sampled.
  - destruct (onmessage_text_cases (sessionIsMouseMode x) m s)
      as [->|(cmd & _ & ->)]; sampled.
Qed.

Lemma oneSampler_handle e s : oneSampler s → oneSampler (handle e s).
Proof.
  intros H.
  destruct e; cbn [handle];
    try (by repeat case_match; try apply oneSampler_onmessage).
  all: destruct H as [H1 H2]; sampled.
Qed.

Lemma oneSampler_commit a s : oneSampler s → oneSampler (commit a s).
Proof. unfold oneSampler, commit. case_bool_decide; cells; done. Qed.

Lemma oneSampler_reachable b es : oneSampler (run (init b) es).
Proof.
  apply reachable_ind; [|apply oneSampler_handle|apply oneSampler_commit].
  split; [apply dom_empty_L|]. cbn. by split; intros [].
Qed.

(** X3.  At most one frame sampler runs: an interval exists exactly when it
    is the one held in [frameIntervalRef], and that one is held exactly
    while the video element has a stream.  Starting a capture clears the
    previous interval, and both teardown functions clear the interval
    together with the stream. *)
Theorem one_sampler_while_attached (b : bool) (es : list Event) :
  let s := run (init b) es in
  (∀ id, is_Some (intervals s !! id) ↔ frameIntervalRef s = Some id) ∧
  (is_Some (frameIntervalRef s) ↔ is_Some (videoSrcObject s)).
Proof.
  cbv zeta. destruct (oneSampler_reachable b es) as [H1 H2].
  split; [|done].
  intros id. rewrite <-elem_of_dom, H1.
  destruct (frameIntervalRef _); set_solver.
Qed.

Ltac lookups :=
  repeat match goal with
  | H : <[_:=_]> _ !! _ = Some _ |- _ =>
      apply lookup_insert_Some in H; destruct H as [[? ?]|[? H]]
  | H : delete _ _ !! _ = Some _ |- _ =>
      apply lookup_delete_Some in H; destruct H as [? H]
  | H : (_ =? _) = true |- _ => apply Nat.eqb_eq in H
  | H : (_ =? _) = false |- _ => apply Nat.eqb_neq in H
  | H : negb _ = true |- _ => apply negb_true_iff in H
  | H : negb _ = false |- _ => apply negb_false_iff in H
  end.

Ltac ordered :=
  cases; unfold mediaOrder; teardowns; cells; repeat case_match; simplify_eq;
  split_and!; intros; lookups; simplify_eq; cbn in *;
  set_unfold; naive_solver lia.

Lemma mediaOrder_onmessage sid x m clock s :
  mediaOrder s → mediaOrder (onmessage sid x m clock s).
Proof.
  intros (Ha & Hb & Hc & Hf & Hg & Hh). unfold onmessage.
  destruct (mouseControlCall m).
  - ordered.
  - destruct (onmessage_text_cases (sessionIsMouseMode x) m s)
      as [->|(cmd & _ & ->)]; ordered.
Qed.

Lemma mediaOrder_handle e s : mediaOrder s → mediaOrder (handle e s).
Proof.
  intros H.
  destruct e; cbn [handle];
    try (by repeat case_match; try apply mediaOrder_onmessage).
  all: destruct H as (Ha & Hb & Hc & Hf & Hg & Hh); ordered.
Qed.

Lemma mediaOrder_commit a s : mediaOrder s → mediaOrder (commit a s).
Proof. unfold mediaOrder, commit. case_bool_decide; cells; done. Qed.

Lemma mediaOrder_reachable b es : mediaOrder (run (init b) es).
Proof.
  apply reachable_ind; [|apply mediaOrder_handle|apply mediaOrder_commit].
  unfold mediaOrder. cbn. split_and!; intros; by simplify_map_eq || set_solver.
Qed.

(** X4.  No video stream is leaked: every stream that was attached to the
    video element has had its tracks stopped unless it is the one attached
    now, and the one attached now has not been stopped. *)
Theorem attached_streams_are_released (b : bool) (es : list Event) :
  let s := run (init b) es in
  (∀ stream, stream ∈ watchedStreams s →
     (stream ∈ stoppedStreams s) ∨ videoSrcObject s = Some stream) ∧
  (∀ stream, videoSrcObject s = Some stream → stream ∉ stoppedStreams s).
Proof.
  cbv zeta. destruct (mediaOrder_reachable b es) as (_ & _ & _ & Hf & Hg & _).
  split; [done|]. intros stream H. by apply Hg.
Qed.

Lemma toggle_resolved_stale k t s :
  pendingMedia s !! k = Some t →
  mt_sequence t ≠ mediaRequestRef s →
  toggle_resolved k s =
    stopTracks (fresh s)
      (set_fresh (S (fresh s)) (set_pendingMedia (delete k (pendingMedia s)) s)).
Proof.
  intros Hk Hseq. unfold toggle_resolved. rewrite Hk. unfold acquired. cells.
  replace (mt_sequence t =? _) with false; [done|].
  symmetry. by apply Nat.eqb_neq.
Qed.

Lemma toggle_keeps_pending toggle k t s :
  (∀ r forceEnable s',
     toggle r forceEnable s' = toggleCamera r forceEnable s' ∨
     toggle r forceEnable s' = toggleScreenShare r forceEnable s') →
  mediaOrder s → pendingMedia s !! k = Some t →
  ∀ r forceEnable,
    let s1 := toggle r forceEnable s in
    pendingMedia s1 !! k = Some t ∧ mt_sequence t < mediaRequestRef s1 ∧
    videoSrcObject s1 = None.
Proof.
  intros Htoggle (Ha & _) Hk r forceEnable. cbv zeta.
  destruct (Ha _ _ Hk) as [Hfresh Hseq].
  destruct (Htoggle r forceEnable s) as [-> | ->];
    unfold toggleCamera, toggleScreenShare; case_match;
    unfold awaitMedia; teardowns; cells;
    (split_and!; [|lia|done]);
    rewrite ?lookup_insert_ne by lia; done.
Qed.

(** X5.  Clicking the camera or the screen button while an acquisition is
    in flight makes that acquisition stale, whichever of the two it was
    for: when it is granted afterwards its stream is stopped at once and
    is not attached, and neither the sampler nor the configuration
    changes. *)
Theorem toggle_cancels_in_flight
    (b : bool) (es : list Event) (k : nat) (t : MediaTask) (e : Event) :
  let s := run (init b) es in
  pendingMedia s !! k = Some t →
  e = ClickCamera ∨ e = ClickScreenShare →
  let s1 := step s e in
  pendingMedia s1 !! k = Some t ∧
  mt_sequence t < mediaRequestRef s1 ∧
  let s2 := step s1 (MediaGranted k) in
  fresh s1 ∈ stoppedStreams s2 ∧
  videoSrcObject s2 = None ∧
  frameIntervalRef s2 = frameIntervalRef s1 ∧
  config s2 = config s1.
Proof.
  intros s Hk He s1.
  assert (pendingMedia s1 !! k = Some t ∧ mt_sequence t < mediaRequestRef s1 ∧
          videoSrcObject s1 = None) as (Hk1 & Hseq & Hv).
  { subst s1. unfold step.
    assert (∀ a s', videoSrcObject (commit a s') = videoSrcObject s') as Hc.
    { intros. unfold commit. case_bool_decide; done. }
    rewrite pendingMedia_commit, mediaRequestRef_commit, Hc.
    destruct He as [-> | ->]; cbn [handle].
    - apply (toggle_keeps_pending toggleCamera); auto.
      apply mediaOrder_reachable.
    - apply (toggle_keeps_pending toggleScreenShare); auto.
      apply mediaOrder_reachable. }
  split_and!; [done..|].
  intros s2. subst s2. unfold step. cbn [handle].
  rewrite (toggle_resolved_stale _ _ _ Hk1) by lia.
  unfold commit. case_bool_decide; cells; (split_and!; [set_solver|done..]).
Qed.

Lemma toggle_cancels_in_flight_witness :
  let s1 := step cameraRequested ClickScreenShare in
  let s2 := step s1 (MediaGranted 0) in
  pendingMedia s1 !! 0 = Some cameraRequest ∧
  fresh s1 ∈ stoppedStreams s2 ∧ videoSrcObject s2 = None ∧
  config s2 = config s1.
Proof.
  pose proof (toggle_cancels_in_flight true [ClickCamera] 0 cameraRequest
                ClickScreenShare eq_refl (or_intror eq_refl)) as H.
  cbv zeta in H. destruct H as (H1 & _ & H2 & H3 & _ & H4).
  intros s1 s2. split_and!; [exact H1|exact H2|exact H3|exact H4].
Defined.

(** X6.  An acquisition that is granted while it is the latest request
    attaches the new stream, installs one sampler for it, sets the flag of
    its kind and clears the other.  The sampler runs with the render in
    which the button was clicked: a tick sends a still to the current
    session promise only if the status in that render was Connected. *)
Theorem granted_capture_installs_sampler (s : State) (k : nat) (t : MediaTask) :
  pendingMedia s !! k = Some t →
  mt_sequence t = mediaRequestRef s →
  let s' := step s (MediaGranted k) in
  let stream := fresh s in
  let id := S stream in
  videoSrcObject s' = Some stream ∧
  frameIntervalRef s' = Some id ∧
  intervals s' !! id = Some (mt_render t) ∧
  stream ∈ watchedStreams s' ∧
  pendingMedia s' !! k = None ∧
  (isCameraEnabled (config s'), isScreenSharing (config s')) =
    match mt_kind t with
    | Camera => (true, false)
    | Screen => (false, true)
    end ∧
  outbox (step s' (IntervalFires id)) =
    match sessionPromiseRef s with
    | Some sid =>
        if bool_decide (r_status (mt_render t) = CONNECTED)
        then (sid, RealtimeImage (Some stream)) :: outbox s
        else outbox s
    | None => outbox s
    end.
Proof.
  intros Hk Hseq s' stream id.
  assert (s' = commit s (toggle_resolved k s)) as E by done.
  unfold toggle_resolved in E. rewrite Hk in E. unfold acquired in E.
  replace (mt_sequence t =? _) with true in E
    by (symmetry; apply Nat.eqb_eq; exact Hseq).
  cbn [negb] in E. unfold startMediaStreaming in E.
  assert (intervals s' !! id = Some (mt_render t)) as Hi.
  { rewrite E. unfold intervals at 1. rewrite browser_commit.
    destruct (mt_kind t); repeat case_match; cells; apply lookup_insert_eq. }
  assert (sessionPromiseRef s' = sessionPromiseRef s ∧ outbox s' = outbox s ∧
          videoSrcObject s' = Some stream) as (Hp & Ho & Hv).
  { rewrite E, sessionPromiseRef_commit, outbox_commit.
    unfold commit.
    destruct (mt_kind t); repeat case_match; by cells. }
  split_and!.
  - done.
  - rewrite E. unfold commit.
    destruct (mt_kind t); repeat case_match; by cells.
  - done.
  - rewrite E. unfold watchedStreams at 1. rewrite browser_commit.
    destruct (mt_kind t); repeat case_match; cells; set_solver.
  - rewrite E, pendingMedia_commit.
    destruct (mt_kind t); repeat case_match; cells; apply lookup_delete_eq.
  - rewrite E. unfold config. rewrite view_commit.
    destruct (mt_kind t); repeat case_match; by cells.
  - unfold step at 1. cbn [handle]. rewrite Hi, outbox_commit.
    unfold sampleFrame. rewrite Hp, Hv.
    destruct (sessionPromiseRef s); repeat case_decide; repeat case_bool_decide;
      try done; by rewrite <-Ho.
Qed.

Lemma granted_capture_installs_sampler_witness :
  let s' := step cameraRequested (MediaGranted 0) in
  videoSrcObject s' = Some 1 ∧ frameIntervalRef s' = Some 2 ∧
  isCameraEnabled (config s') = true.
Proof.
  pose proof (granted_capture_installs_sampler cameraRequested 0 cameraRequest
                eq_refl eq_refl) as H.
  cbv zeta in H. destruct H as (H1 & H2 & _ & _ & _ & H3 & _).
  intros s'. split_and!; [exact H1|exact H2|exact (f_equal fst H3)].
Defined.

Ltac sampler :=
  cases; teardowns; cells; repeat case_match; simplify_eq;
  (split; [lia|]); intros ?;
  rewrite ?lookup_insert_Some, ?lookup_delete_Some; naive_solver lia.

Lemma samplerIs_onmessage id r sid x m clock s :
  samplerIs id r s → samplerIs id r (onmessage sid x m clock s).
Proof.
  unfold samplerIs. intros [Hid Hr]. unfold onmessage.
  destruct (mouseControlCall m).
  - sampler.
  - destruct (onmessage_text_cases (sessionIsMouseMode x) m s)
      as [->|(cmd & _ & ->)]; sampler.
Qed.

Lemma samplerIs_handle id r e s : samplerIs id r s → samplerIs id r (handle e s).
Proof.
  intros H. destruct e; cbn [handle];
    try (by repeat case_match; try apply samplerIs_onmessage).
  all: destruct H as [Hid Hr]; unfold samplerIs; sampler.
Qed.

Lemma samplerIs_commit id r a s : samplerIs id r s → samplerIs id r (commit a s).
Proof. unfold samplerIs, commit. case_bool_decide; cells; done. Qed.

Lemma samplerIs_run id r es s : samplerIs id r s → samplerIs id r (run s es).
Proof.
  revert s. induction es as [|e es IH]; intros s H; [done|].
  apply IH, samplerIs_commit, samplerIs_handle, H.
Qed.

Ltac allocating :=
  cases; teardowns; cells; repeat case_match; simplify_eq;
  intros ?; rewrite ?lookup_insert_is_Some, ?lookup_delete_is_Some;
  naive_solver lia.

Lemma intervalsAllocated_onmessage sid x m clock s :
  intervalsAllocated s → intervalsAllocated (onmessage sid x m clock s).
Proof.
  unfold intervalsAllocated. intros H. unfold onmessage.
  destruct (mouseControlCall m).
  - allocating.
  - destruct (onmessage_text_cases (sessionIsMouseMode x) m s)
      as [->|(cmd & _ & ->)]; allocating.
Qed.

Lemma intervalsAllocated_handle e s :
  intervalsAllocated s → intervalsAllocated (handle e s).
Proof.
  intros H. destruct e; cbn [handle];
    try (by repeat case_match; try apply intervalsAllocated_onmessage).
  all: unfold intervalsAllocated in *; allocating.
Qed.

Lemma intervalsAllocated_commit a s :
  intervalsAllocated s → intervalsAllocated (commit a s).
Proof. unfold intervalsAllocated, commit. case_bool_decide; cells; done. Qed.

Lemma intervalsAllocated_reachable b es : intervalsAllocated (run (init b) es).
Proof.
  apply reachable_ind;
    [|apply intervalsAllocated_handle|apply intervalsAllocated_commit].
  intros i. cbn. rewrite lookup_empty. by intros [? ?].
Qed.

(** X7.  The status a sampler tests is the one of the render that started
    the capture, for as long as the sampler lives: a sampler whose render
    was not Connected sends no still on any later tick, whatever happened
    in between, a session connecting included. *)
Theorem offline_sampler_never_sends
    (b : bool) (es : list Event) (id : nat) (r : Render) (es' : list Event) :
  let s := run (init b) es in
  intervals s !! id = Some r →
  r_status r ≠ CONNECTED →
  let s' := run s es' in
  outbox (step s' (IntervalFires id)) = outbox s'.
Proof.
  intros s Hi Hr s'.
  assert (samplerIs id r s') as [_ Hs].
  { apply samplerIs_run. split.
    - by apply (intervalsAllocated_reachable b es).
    - intros r' Hr'. congruence. }
  unfold step. cbn [handle]. rewrite outbox_commit.
  destruct (intervals s' !! id) as [r'|] eqn:E; [|done].
  rewrite (Hs r' eq_refl). unfold sampleFrame. by rewrite decide_False.
Qed.

Lemma offline_sampler_never_sends_witness :
  let s' :=
    run (run (init true) [ClickCamera; MediaGranted 0])
      [KeyDown (js "Enter"); MicrophoneGranted 3; SessionOpened 4;
       SessionResolved 4] in
  outbox (step s' (IntervalFires 2)) = outbox s'.
Proof.
  apply (offline_sampler_never_sends true [ClickCamera; MediaGranted 0] 2
           {| r_status := IDLE; r_config := initialConfig |}
           [KeyDown (js "Enter"); MicrophoneGranted 3; SessionOpened 4;
            SessionResolved 4]).
  - reflexivity.
  - vm_compute. discriminate.
Defined.

(** ** Commands in text *)

Lemma dropWhile_app_stop {A} (p : A → bool) (l1 : list A) (x : A) (l2 : list A) :
  Forall (fun a => p a = true) l1 → p x = false →
  dropWhile p (l1 ++ x :: l2) = x :: l2.
Proof.
  intros Hl Hx. induction Hl as [|a l Ha _ IH]; simpl.
  - by rewrite Hx.
  - by rewrite Ha.
Qed.

Lemma dropWhile_all {A} (p : A → bool) (l : list A) :
  Forall (fun a => p a = true) l → dropWhile p l = [].
Proof. induction 1 as [|a l Ha _ IH]; simpl; [done|by rewrite Ha]. Qed.

Lemma Forall_differs (n : N) (l : list N) :
  Forall (fun c => c ≠ n) l → Forall (fun c => negb (c =? n)%N = true) l.
Proof.
  intros Hl. eapply Forall_impl; [exact Hl|]. intros c Hc.
  apply negb_true_iff. by apply N.eqb_neq.
Qed.

(** The match runs from the first opening brace to the last closing brace. *)
Lemma matchBraceSpan_found (before body after : jsstring) :
  Forall (fun c => c ≠ 123%N) before → Forall (fun c => c ≠ 125%N) after →
  matchBraceSpan (before ++ [123%N] ++ body ++ [125%N] ++ after)
    = Some ([123%N] ++ body ++ [125%N]).
Proof.
  intros Hb Ha. unfold matchBraceSpan.
  simpl app. rewrite (dropWhile_app_stop _ before) by auto using Forall_differs.
  rewrite rev_app_distr. simpl rev. rewrite <-!app_assoc. simpl app.
  rewrite (dropWhile_app_stop _ (rev after))
    by (try apply Forall_differs, Forall_rev; done).
  simpl. by rewrite rev_involutive.
Qed.

Lemma matchBraceSpan_object (body : jsstring) :
  matchBraceSpan ([123%N] ++ body ++ [125%N]) = Some ([123%N] ++ body ++ [125%N]).
Proof.
  pose proof (matchBraceSpan_found [] body []) as H.
  rewrite !app_nil_r in H. apply H; constructor.
Qed.

Lemma matchBraceSpan_unclosed (before rest : jsstring) :
  Forall (fun c => c ≠ 123%N) before → Forall (fun c => c ≠ 125%N) rest →
  matchBraceSpan (before ++ [123%N] ++ rest) = None.
Proof.
  intros Hb Hr. unfold matchBraceSpan.
  simpl app. rewrite (dropWhile_app_stop _ before) by auto using Forall_differs.
  by rewrite dropWhile_all by (apply Forall_differs, Forall_rev; done).
Qed.

(** X8.  The command is read from the span between the first opening brace
    and the last closing brace of the text: what precedes the object and
    what follows it (free of closing braces) does not change what is
    published. *)
Theorem command_ignores_surrounding_text (before body after : jsstring) (s : State) :
  Forall (fun c => c ≠ 123%N) before → Forall (fun c => c ≠ 125%N) after →
  let object := [123%N] ++ body ++ [125%N] in
  matchBraceSpan (before ++ object ++ after) = Some object ∧
  publishCommand (before ++ object ++ after) s = publishCommand object s.
Proof.
  intros Hb Ha object.
  assert (matchBraceSpan (before ++ object ++ after) = Some object) as H.
  { unfold object. rewrite <-!app_assoc. by apply matchBraceSpan_found. }
  split; [done|]. unfold publishCommand. rewrite H.
  unfold object. by rewrite matchBraceSpan_object.
Qed.

Lemma command_ignores_surrounding_text_witness :
  let before := js "  " in
  let body := jsq "'action':'click'" in
  let after := js " done" in
  let object := [123%N] ++ body ++ [125%N] in
  matchBraceSpan (before ++ object ++ after) = Some object ∧
  publishCommand (before ++ object ++ after) connected
    = publishCommand object connected.
Proof.
  apply (command_ignores_surrounding_text (js "  ") (jsq "'action':'click'")
           (js " done") connected);
    by apply Forall_forall; intros c Hc; vm_compute in Hc; set_unfold; naive_solver.
Defined.

(** X9.  A text whose first opening brace is followed by no closing brace
    has no match: the text branch publishes nothing and sets no timer,
    whether or not the text looks like a command. *)
Theorem command_needs_closing_brace (before rest : jsstring) (mouse : bool)
    (m : LiveServerMessage) (s : State) :
  Forall (fun c => c ≠ 123%N) before → Forall (fun c => c ≠ 125%N) rest →
  parts m = Some [{| text := Some (before ++ [123%N] ++ rest); inlineData := None |}] →
  matchBraceSpan (before ++ [123%N] ++ rest) = None ∧
  onmessage_text mouse m s = Normal s.
Proof.
  intros Hb Hr Hm.
  assert (matchBraceSpan (before ++ [123%N] ++ rest) = None) as H
    by by apply matchBraceSpan_unclosed.
  split; [done|]. unfold onmessage_text. rewrite Hm.
  destruct mouse; [|done].
  destruct (before ++ [123%N] ++ rest) as [|c t] eqn:E.
  { by destruct before. }
  cbn [find hasText text]. unfold publishCommand. rewrite H.
  by destruct (isJsonLike _).
Qed.

Lemma command_needs_closing_brace_witness :
  isJsonLike (jsq "{'action':'click'") = true ∧
  onmessage_text true (textMessage (jsq "{'action':'click'")) connected
    = Normal connected.
Proof.
  split; [reflexivity|].
  apply (command_needs_closing_brace [] (jsq "'action':'click'") true
           (textMessage (jsq "{'action':'click'")) connected).
  - constructor.
  - by apply Forall_forall; intros c Hc; vm_compute in Hc; set_unfold; naive_solver.
  - reflexivity.
Defined.

(** ** The talking indicators *)

Lemma audioSourcesRef_endAll sources s :
  audioSourcesRef (endAll sources s) = audioSourcesRef s ∖ list_to_set sources.
Proof.
  revert s. induction sources as [|a l IH]; intros s; simpl.
  - set_solver.
  - rewrite IH. unfold onended. case_bool_decide; cells; set_solver.
Qed.

(** X10.  When the sources that end cover the set of playing sources, the
    set is empty afterwards and the model is no longer shown talking,
    whatever the order in which they end and whatever other sources end
    among them. *)
Theorem playback_idle_when_all_ended (sources : list nat) (s : State) :
  sources ≠ [] →
  audioSourcesRef s ⊆ list_to_set sources →
  audioSourcesRef (endAll sources s) = ∅ ∧
  isModelTalking (endAll sources s) = false.
Proof.
  intros Hne Hsub. split.
  - rewrite audioSourcesRef_endAll. set_solver.
  - destruct (exists_last Hne) as (l & a & ->).
    unfold endAll. rewrite fold_left_app. simpl. fold (endAll l s).
    unfold onended. rewrite bool_decide_eq_true_2; [done|].
    change (audioSourcesRef (endAll l s) ∖ {[a]} = ∅).
    rewrite audioSourcesRef_endAll.
    rewrite list_to_set_app_L in Hsub. set_solver.
Qed.

Lemma playback_idle_when_all_ended_witness :
  isModelTalking threeChunks = true ∧
  audioSourcesRef (endAll [5; 7; 9] threeChunks) = ∅ ∧
  isModelTalking (endAll [5; 7; 9] threeChunks) = false.
Proof.
  split; [reflexivity|].
  apply (playback_idle_when_all_ended [5; 7; 9] threeChunks).
  - discriminate.
  - apply (bool_decide_unpack _). by vm_compute.
Defined.

(** ** Switching the mouse mode *)

Lemma applyMouseMode_live r enabled s :
  live (r_status r) →
  applyMouseMode r enabled s =
  setTimeout 150
    (Reconnect r (isCameraEnabled (r_config r) || isScreenSharing (r_config r))
       (instructionFor enabled) enabled)
    (stopSession (updateConfig (withMode enabled (instructionFor enabled)) s)).
Proof.
  intros [H|H]; unfold applyMouseMode; rewrite H; by repeat case_bool_decide.
Qed.

Lemma applyMouseMode_stale r enabled s :
  ¬ live (r_status r) →
  applyMouseMode r enabled s =
  updateConfig (withMode enabled (instructionFor enabled)) s.
Proof.
  intros H. unfold applyMouseMode, live in *.
  repeat case_bool_decide; naive_solver.
Qed.

Lemma tornDown_updateConfig f s t :
  tornDown (updateConfig f s) t → tornDown s t.
Proof. done. Qed.

Lemma tornDown_setTimeout d a s t :
  tornDown s t → tornDown s (setTimeout d a t).
Proof. done. Qed.

Lemma tornDown_send sid payload s t :
  tornDown s t → tornDown s (send sid payload t).
Proof. done. Qed.

(** X12.  Switching the mouse mode while the status is Connected or
    Connecting runs [stopSession], records the new mode and its instruction,
    and adds one timer due 150 ms later that restarts with the new mode, the
    new instruction and the visual capture that was on.  The teardown
    releases what the refs hold: the session in [sessionRef] is closed, the
    held audio nodes are disconnected, the active sources, the attached
    stream and the sampler are stopped, and the status is Idle.  Nothing in
    flight is cancelled and nothing is started or sent by the click: the
    pending starts and the awaited connections are those from before, and a
    session that is not the one in [sessionRef] keeps its transport.  So
    while Connecting, where [sessionRef] is still empty, the start in flight
    goes on beside the restart that the timer brings. *)
Theorem mode_switch_while_live (s : State) :
  live (status s) →
  let enabled := negb (isMouseMode (config s)) in
  let visual := isCameraEnabled (config s) || isScreenSharing (config s) in
  let s' := step s ClickMouseMode in
  status s' = IDLE ∧ tornDown s s' ∧
  isMouseMode (config s') = enabled ∧
  systemInstruction (config s') = Some (instructionFor enabled) ∧
  timers s' =
    <[fresh s := {| due := (now s + 150)%N;
                    action := Reconnect (currentRender s) visual
                                (instructionFor enabled) enabled |}]> (timers s) ∧
  pendingStarts s' = pendingStarts s ∧
  awaitingSession s' = awaitingSession s ∧
  (∀ sid x, transports s !! sid = Some x → sessionRef s ≠ Some sid →
     transports s' !! sid = Some x) ∧
  (sessionRef s = None → transports s' = transports s) ∧
  outbox s' = outbox s.
Proof.
  intros Hlive enabled visual s'. subst s'. unfold step. cbn [handle].
  unfold toggleMouseMode. rewrite applyMouseMode_live by done.
  split_and!.
  - rewrite status_commit. by torn.
  - apply tornDown_commit, tornDown_setTimeout.
    apply (tornDown_updateConfig (withMode enabled (instructionFor enabled))).
    apply stopSession_tornDown.
  - unfold config. rewrite view_commit. by torn.
  - unfold config. rewrite view_commit. by torn.
  - rewrite timers_commit. by torn.
  - unfold pendingStarts. rewrite tasks_commit. by torn.
  - unfold awaitingSession. rewrite tasks_commit. by torn.
  - intros sid x Hx Hne. rewrite transports_commit. torn.
    case_match; [|done]. rewrite lookup_alter_ne; [done|congruence].
  - intros Href. rewrite transports_commit. torn.
    case_match; [congruence|done].
  - rewrite outbox_commit. by torn.
Qed.

Lemma mode_switch_while_live_witness :
  let s := run (init true) [KeyDown (js "Enter"); MicrophoneGranted 0] in
  let s' := step s ClickMouseMode in
  (status s = CONNECTING ∧ sessionRef s = None ∧ awaitingSession s = {[1]}) ∧
  status s' = IDLE ∧ isMouseMode (config s') = false ∧
  awaitingSession s' = {[1]} ∧ transports s' = transports s.
Proof.
  pose proof (mode_switch_while_live
                (run (init true) [KeyDown (js "Enter"); MicrophoneGranted 0])
                (or_intror eq_refl)) as H.
  cbv zeta in H. destruct H as (H1 & _ & H2 & _ & _ & _ & _ & _ & H3 & _).
  intros s s'.
  split_and!; [by vm_compute..|exact H1|exact H2|by vm_compute|exact (H3 eq_refl)].
Defined.

Lemma onopen_status sid x s : status (onopen sid x s) = CONNECTED.
Proof.
  unfold onopen, toggleScreenShare, toggleCamera, awaitMedia.
  cbn [orb]. repeat case_match; teardowns; reflexivity.
Qed.

Lemma onopen_pendingMedia sid x s :
  pendingMedia (onopen sid x s) =
  if withVisual x
  then <[S (S (fresh s)) :=
           {| mt_kind := visualKind (captured x);
              mt_sequence := S (mediaRequestRef s);
              mt_render := captured x |}]> (pendingMedia s)
  else pendingMedia s.
Proof.
  unfold onopen, visualKind, toggleScreenShare, toggleCamera, awaitMedia.
  cbn [orb]. repeat case_match; teardowns; reflexivity.
Qed.

(** What a start followed by the grant of the microphone sets up. *)
Lemma start_then_grant r visual instruction mouse s :
  hasGetUserMedia s = true →
  let s1 := commit s (startSession r visual instruction mouse s) in
  let s2 := step s1 (MicrophoneGranted (fresh s)) in
  transports s2 !! S (fresh s) =
    Some {| transport := TOpening; captured := r; withVisual := visual;
            sessionIsMouseMode :=
              match mouse with
              | Some b => b
              | None => isMouseMode (r_config r)
              end;
            sessionInstruction :=
              orElse instruction (systemInstruction (r_config r)) |} ∧
  sessionPromiseRef s2 = Some (S (fresh s)) ∧
  status s2 = CONNECTING ∧
  config s2 = config s ∧
  pendingMedia s2 = pendingMedia s ∧
  mediaRequestRef s2 = mediaRequestRef s.
Proof.
  intros Hm s1 s2.
  assert (s1 = commit s (startSession r visual instruction mouse s)) as E1 by done.
  unfold startSession in E1. rewrite Hm in E1. cbn [negb] in E1.
  assert (pendingStarts s1 !! fresh s =
            Some {| st_render := r; st_withVisual := visual;
                    st_instructionOverride := instruction;
                    st_isMouseModeOverride := mouse |}) as Hp.
  { rewrite E1, pendingStarts_commit. cells. apply lookup_insert_eq. }
  assert (s2 = commit s1 (startSession_connect (fresh s) s1)) as E2 by done.
  unfold startSession_connect in E2. rewrite Hp in E2.
  cbn [st_render st_withVisual st_instructionOverride st_isMouseModeOverride] in E2.
  assert (fresh s1 = S (fresh s)) as Hf by by rewrite E1, fresh_commit.
  split_and!.
  - rewrite E2, transports_commit, <-Hf. cells. apply lookup_insert_eq.
  - by rewrite E2, sessionPromiseRef_commit, <-Hf.
  - rewrite E2, status_commit. change (status s1 = CONNECTING).
    by rewrite E1, status_commit.
  - rewrite E2. unfold config. rewrite view_commit.
    change (config s1 = config s). rewrite E1. unfold config.
    by rewrite view_commit.
  - rewrite E2, pendingMedia_commit. change (pendingMedia s1 = pendingMedia s).
    by rewrite E1, pendingMedia_commit.
  - rewrite E2, mediaRequestRef_commit.
    change (mediaRequestRef s1 = mediaRequestRef s).
    by rewrite E1, mediaRequestRef_commit.
Qed.

(** X13.  When the restart timer of a mode switch fires, a session is
    started with the overrides the timer carries: after the microphone is
    granted the session is created with that mouse mode, that instruction
    and that visual flag, whatever the configuration says by then; when it
    opens the status is Connected and, if the visual flag is set, the
    capture that was on before the switch is requested again (the screen
    if the screen was shared, the camera otherwise). *)
Theorem reconnect_timer_restores_session (s : State) (id : nat) (d : N)
    (r : Render) (visual : bool) (instruction : jsstring) (mouse : bool) :
  timers s !! id = Some {| due := d; action := Reconnect r visual instruction mouse |} →
  (d <= now s)%N →
  hasGetUserMedia s = true →
  instruction ≠ [] →
  let s1 := step s (TimerFires id) in
  let s2 := step s1 (MicrophoneGranted (fresh s)) in
  let sid := S (fresh s) in
  let s3 := step s2 (SessionOpened sid) in
  status s1 = CONNECTING ∧ timers s1 !! id = None ∧
  transports s2 !! sid =
    Some {| transport := TOpening; captured := r; withVisual := visual;
            sessionIsMouseMode := mouse;
            sessionInstruction := Some instruction |} ∧
  sessionPromiseRef s2 = Some sid ∧
  status s3 = CONNECTED ∧
  (if visual
   then ∃ k, pendingMedia s3 !! k =
               Some {| mt_kind := visualKind r;
                       mt_sequence := S (mediaRequestRef s); mt_render := r |}
   else pendingMedia s3 = pendingMedia s).
Proof.
  intros Ht Hd Hm Hi s1 s2 sid s3.
  set (s0 := set_timers (delete id (timers s)) s).
  assert (s1 = commit s0 (startSession r visual (Some instruction) (Some mouse) s0))
    as E1.
  { unfold s1, step. cbn [handle]. rewrite Ht. cbn [due action].
    apply N.leb_le in Hd. rewrite Hd. unfold fire, commit.
    by assert (status s0 = status s) as -> by done. }
  destruct (start_then_grant r visual (Some instruction) (Some mouse) s0 Hm)
    as (Hx & Hp & _ & _ & Hpm & Hmr).
  rewrite <-E1 in Hx, Hp, Hpm, Hmr.
  change (fresh s0) with (fresh s) in Hx, Hp, Hpm, Hmr.
  change (pendingMedia s0) with (pendingMedia s) in Hpm.
  change (mediaRequestRef s0) with (mediaRequestRef s) in Hmr.
  fold s2 in Hx, Hp, Hpm, Hmr. fold sid in Hx, Hp.
  assert (orElse (Some instruction) (systemInstruction (r_config r))
          = Some instruction) as Ho by by destruct instruction.
  rewrite Ho in Hx.
  assert (s3 = commit s2 (handle (SessionOpened sid) s2)) as E3 by done.
  cbn [handle] in E3. rewrite Hx in E3. cbn [transport] in E3.
  rewrite bool_decide_eq_true_2 in E3 by done.
  split_and!.
  - rewrite E1, status_commit. unfold startSession.
    by assert (hasGetUserMedia s0 = true) as -> by done.
  - rewrite E1, timers_commit. unfold startSession.
    assert (hasGetUserMedia s0 = true) as -> by done.
    cells. apply lookup_delete_eq.
  - done.
  - done.
  - by rewrite E3, status_commit, onopen_status.
  - rewrite E3, pendingMedia_commit, onopen_pendingMedia.
    cbn [withVisual captured withTransport].
    change (mediaRequestRef (set_transports _ s2)) with (mediaRequestRef s2).
    change (pendingMedia (set_transports _ s2)) with (pendingMedia s2).
    rewrite Hpm, Hmr. destruct visual; [|done].
    eexists. apply lookup_insert_eq.
Qed.

Lemma reconnect_timer_restores_session_witness :
  let s1 := step modeSwitched (TimerFires 4) in
  let s2 := step s1 (MicrophoneGranted (fresh modeSwitched)) in
  let sid := S (fresh modeSwitched) in
  status s1 = CONNECTING ∧
  transports s2 !! sid =
    Some {| transport := TOpening;
            captured := {| r_status := CONNECTED; r_config := initialConfig |};
            withVisual := false; sessionIsMouseMode := false;
            sessionInstruction := Some NORMAL_SYSTEM_INSTRUCTION |} ∧
  status (step s2 (SessionOpened sid)) = CONNECTED.
Proof.
  pose proof (reconnect_timer_restores_session modeSwitched 4 150
                {| r_status := CONNECTED; r_config := initialConfig |} false
                NORMAL_SYSTEM_INSTRUCTION false eq_refl) as H.
  cbv zeta in H.
  destruct H as (H1 & _ & H2 & _ & H3 & _); [by vm_compute|reflexivity|discriminate|].
  intros s1 s2 sid. split_and!; [exact H1|exact H2|exact H3].
Defined.

(** X14.  A [set_mouse_control] call is acknowledged to the session that
    sent it and the mode it asks for is recorded; the rest of the message
    is not looked at (no command is published, no audio is decoded or
    scheduled, an interruption flag does not reset the playback clock).
    Whether the session restarts depends on the status in the render that
    started the session: if that was Connected or Connecting the session is
    torn down and a restart timer is set as for the button; otherwise (a
    session started while idle) only the configuration changes and the
    session goes on with the mode it was created with. *)
Theorem tool_call_dispatch (s : State) (sid : nat) (x : Session)
    (m : LiveServerMessage) (clock : float) (fc : FunctionCall) :
  transports s !! sid = Some x →
  transport x = TOpen →
  mouseControlCall m = Some fc →
  let s' := step s (SessionMessage sid m clock) in
  let enabled := fc_enabled fc in
  outbox s' =
    (sid, ToolResponse (fc_id fc) (fc_name fc) (acknowledgement enabled))
      :: outbox s ∧
  isMouseMode (config s') = enabled ∧
  systemInstruction (config s') = Some (instructionFor enabled) ∧
  lastCommand s' = lastCommand s ∧
  pendingDecodes s' = pendingDecodes s ∧
  started s' = started s ∧
  nextStartTimeRef s' = nextStartTimeRef s ∧
  (live (r_status (captured x)) →
     status s' = IDLE ∧ tornDown s s' ∧
     timers s' =
       <[fresh s :=
           {| due := (now s + 150)%N;
              action :=
                Reconnect (captured x)
                  (isCameraEnabled (r_config (captured x))
                   || isScreenSharing (r_config (captured x)))
                  (instructionFor enabled) enabled |}]> (timers s)) ∧
  (¬ live (r_status (captured x)) →
     status s' = status s ∧ transports s' = transports s ∧
     timers s' = timers s ∧ sessionRef s' = sessionRef s ∧
     audioSourcesRef s' = audioSourcesRef s).
Proof.
  intros Hx Hopen Hfc s' enabled. subst s'. unfold step. cbn [handle].
  rewrite Hx, bool_decide_eq_true_2 by done. unfold onmessage. rewrite Hfc.
  fold enabled.
  rewrite outbox_commit, lastCommand_commit, started_commit,
    nextStartTimeRef_commit, status_commit, timers_commit, transports_commit.
  unfold config, pendingDecodes. rewrite view_commit, tasks_commit.
  assert (live (r_status (captured x)) ∨ ¬ live (r_status (captured x)))
    as [Hl|Hl] by (unfold live; destruct (r_status (captured x)); naive_solver).
  - rewrite applyMouseMode_live by done. split_and!; try (by torn).
    intros _. split_and!; try (by torn).
    apply tornDown_commit, tornDown_send, tornDown_setTimeout.
    apply (tornDown_updateConfig (withMode enabled (instructionFor enabled))).
    apply stopSession_tornDown.
  - rewrite applyMouseMode_stale by done. split_and!; try done.
    intros _. split_and!; try done.
    all: unfold commit; by case_bool_decide.
Qed.

Lemma tool_call_dispatch_witness :
  let s' := step connected (SessionMessage 1 mouseOffMessage 0) in
  isMouseMode (config s') = false ∧ status s' = CONNECTED ∧
  transports s' = transports connected.
Proof.
  pose proof (tool_call_dispatch connected 1 firstSession mouseOffMessage 0%float
                mouseOff eq_refl eq_refl eq_refl) as H.
  cbv zeta in H. destruct H as (_ & H1 & _ & _ & _ & _ & _ & _ & H2).
  destruct H2 as (H2 & H3 & _).
  { vm_compute. intros [|]; discriminate. }
  intros s'. split_and!; [exact H1|exact H2|exact H3].
Defined.

(** ** Teardown and the work in flight *)

(** X15.  [stopSession] cancels nothing that is in flight: pending starts,
    awaited connections, pending decodes, pending acquisitions and timers
    are as before, sessions other than the one in [sessionRef] keep their
    transport, and the playback clock is not reset.  So a connection that
    resolves afterwards is stored in [sessionRef], a microphone granted
    afterwards still creates a session, both with the status Idle, and a
    chunk decoded afterwards is still started. *)
Theorem teardown_spares_work_in_flight (s : State) :
  let s1 := stopSession s in
  pendingStarts s1 = pendingStarts s ∧
  awaitingSession s1 = awaitingSession s ∧
  pendingDecodes s1 = pendingDecodes s ∧
  pendingMedia s1 = pendingMedia s ∧
  timers s1 = timers s ∧
  nextStartTimeRef s1 = nextStartTimeRef s ∧
  mediaRequestRef s1 = mediaRequestRef s ∧
  (∀ sid x, transports s !! sid = Some x → sessionRef s ≠ Some sid →
     transports s1 !! sid = Some x) ∧
  (∀ sid, sid ∈ awaitingSession s →
     let s2 := step s1 (SessionResolved sid) in
     sessionRef s2 = Some sid ∧ status s2 = IDLE) ∧
  (∀ k t, pendingStarts s !! k = Some t →
     let s2 := step s1 (MicrophoneGranted k) in
     sessionPromiseRef s2 = Some (fresh s) ∧
     is_Some (transports s2 !! fresh s) ∧ status s2 = IDLE) ∧
  (∀ k t audioBuffer, pendingDecodes s !! k = Some t →
     let s2 := step s1 (Decoded k audioBuffer) in
     started s2 =
       {| sc_source := fresh s; sc_start := nextStartTimeRef s;
          sc_duration := duration audioBuffer |} :: started s).
Proof.
  cbv zeta. split_and!; try (by torn).
  - intros sid x Hx Hne. torn. case_match; [|done].
    rewrite lookup_alter_ne; [done|congruence].
  - intros sid Hin. unfold step. cbn [handle]. unfold startSession_resolved.
    assert (awaitingSession (stopSession s) = awaitingSession s) as -> by by torn.
    rewrite decide_True by done. rewrite status_commit.
    split; [|by torn]. unfold commit. by case_bool_decide.
  - intros k t Hk. unfold step. cbn [handle]. unfold startSession_connect.
    assert (pendingStarts (stopSession s) = pendingStarts s) as -> by by torn.
    rewrite Hk, sessionPromiseRef_commit, transports_commit, status_commit.
    split_and!; try (by torn).
    torn. rewrite lookup_insert_eq. by eexists.
  - intros k t audioBuffer Hk. unfold step. cbn [handle]. unfold onmessage_resume.
    assert (pendingDecodes (stopSession s) = pendingDecodes s) as -> by by torn.
    rewrite Hk, started_commit. unfold onmessage_interrupted, interrupt, schedule.
    case_match; by torn.
Qed.

Ltac wired :=
  cases; teardowns; cells; repeat case_match; simplify_eq;
  (split; intros *); set_unfold; naive_solver lia.

Lemma nodesAllocated_onmessage sid x m clock s :
  nodesAllocated s → nodesAllocated (onmessage sid x m clock s).
Proof.
  unfold nodesAllocated. intros [Hc Hn]. unfold onmessage.
  destruct (mouseControlCall m).
  - wired.
  - destruct (onmessage_text_cases (sessionIsMouseMode x) m s)
      as [->|(cmd & _ & ->)]; wired.
Qed.

Lemma nodesAllocated_handle e s : nodesAllocated s → nodesAllocated (handle e s).
Proof.
  intros H. destruct e; cbn [handle];
    try (by repeat case_match; try apply nodesAllocated_onmessage).
  all: destruct H as [Hc Hn]; unfold nodesAllocated; wired.
Qed.

Lemma nodesAllocated_commit a s : nodesAllocated s → nodesAllocated (commit a s).
Proof. unfold nodesAllocated, commit. case_bool_decide; cells; done. Qed.

Lemma nodesAllocated_reachable b es : nodesAllocated (run (init b) es).
Proof.
  apply reachable_ind; [|apply nodesAllocated_handle|apply nodesAllocated_commit].
  split; [set_solver|done].
Qed.

Ltac unwired :=
  cases; teardowns; cells; repeat case_match; simplify_eq;
  (split; [lia|]); set_unfold; naive_solver lia.

Lemma disconnected_onmessage node sid x m clock s :
  disconnected node s → disconnected node (onmessage sid x m clock s).
Proof.
  unfold disconnected. intros [Hc Hn]. unfold onmessage.
  destruct (mouseControlCall m).
  - unwired.
  - destruct (onmessage_text_cases (sessionIsMouseMode x) m s)
      as [->|(cmd & _ & ->)]; unwired.
Qed.

Lemma disconnected_handle node e s :
  disconnected node s → disconnected node (handle e s).
Proof.
  intros H. destruct e; cbn [handle];
    try (by repeat case_match; try apply disconnected_onmessage).
  all: destruct H as [Hc Hn]; unfold disconnected; unwired.
Qed.

Lemma disconnected_commit node a s :
  disconnected node s → disconnected node (commit a s).
Proof. unfold disconnected, commit. case_bool_decide; cells; done. Qed.

Lemma disconnected_run node es s :
  disconnected node s → disconnected node (run s es).
Proof.
  revert s. induction es as [|e es IH]; intros s H; [done|].
  apply IH, disconnected_commit, disconnected_handle, H.
Qed.

(** X16.  After an event whose handler is [stopSession], the capture that
    was running stays silent for good: the frame handler of the processor
    held in [audioNodesRef] never runs again, and the sampler held in
    [frameIntervalRef] never ticks again, whatever sessions are started
    later. *)
Theorem teardown_silences_capture
    (b : bool) (es : list Event) (e : Event) (es' : list Event) :
  let s := run (init b) es in
  handle e s = stopSession s →
  let s' := run (step s e) es' in
  (∀ source processor inputData,
     audioNodesRef s = Some (source, processor) →
     handle (AudioProcess processor inputData) s' = s') ∧
  (∀ id, frameIntervalRef s = Some id → handle (IntervalFires id) s' = s').
Proof.
  intros s He s'. split.
  - intros source processor inputData Hn.
    destruct (nodesAllocated_reachable b es) as [_ Ha]. fold s in Ha.
    destruct (Ha _ _ Hn) as [_ Hp].
    assert (disconnected processor s') as [_ Hd].
    { apply disconnected_run, disconnected_commit. rewrite He.
      unfold disconnected. torn. fold (audioNodesRef s). rewrite Hn.
      split; [done|set_solver]. }
    cbn [handle]. case_match; [|done].
    by rewrite bool_decide_eq_false_2.
  - intros id Hid.
    assert (samplerIs id {| r_status := IDLE; r_config := initialConfig |} s')
      as [_ Hs].
    { apply samplerIs_run, samplerIs_commit. rewrite He.
      destruct (oneSampler_reachable b es) as [Ho _]. fold s in Ho.
      rewrite Hid in Ho.
      assert (id < fresh s) as Hlt.
      { apply (intervalsAllocated_reachable b es), elem_of_dom. fold s.
        rewrite Ho. set_solver. }
      unfold samplerIs. torn. fold (frameIntervalRef s). rewrite Hid.
      split; [done|]. intros r'. by rewrite lookup_delete_eq. }
    cbn [handle].
    destruct (intervals s' !! id) as [r'|] eqn:E; [|done].
    rewrite (Hs r' eq_refl). unfold sampleFrame. by rewrite decide_False.
Qed.

Lemma teardown_silences_capture_witness :
  let s' :=
    run (step connected ClickCall)
      [ClickCall; MicrophoneGranted 4; SessionOpened 5; SessionResolved 5] in
  status s' = CONNECTED ∧
  handle (AudioProcess 3 [0.5]%float) s' = s'.
Proof.
  intros s'. split; [by vm_compute|].
  refine (proj1 (teardown_silences_capture true
                   [KeyDown (js "Enter"); MicrophoneGranted 0; SessionOpened 1;
                    SessionResolved 1]
                   ClickCall
                   [ClickCall; MicrophoneGranted 4; SessionOpened 5;
                    SessionResolved 5] _) 2 3 [0.5]%float _);
    by vm_compute.
Defined.

(** ** The keyboard *)

Lemma keydownRender_onmessage sid x m clock s :
  keydownRender (onmessage sid x m clock s) = keydownRender s.
Proof.
  unfold onmessage. destruct (mouseControlCall m).
  - cases; teardowns; reflexivity.
  - destruct (onmessage_text_cases (sessionIsMouseMode x) m s)
      as [->|(cmd & _ & ->)]; cases; teardowns; reflexivity.
Qed.

Lemma keydownRender_handle e s : keydownRender (handle e s) = keydownRender s.
Proof.
  destruct e; cbn [handle];
    try (by repeat case_match; try apply keydownRender_onmessage).
  all: cases; teardowns; reflexivity.
Qed.

Lemma keydownRender_step s e :
  r_status (keydownRender s) = status s →
  r_status (keydownRender (step s e)) = status (step s e).
Proof.
  intros H. unfold step. rewrite status_commit. unfold commit.
  case_bool_decide as Hs.
  - change (r_status (keydownRender (handle e s)) = status (handle e s)).
    by rewrite keydownRender_handle, H.
  - reflexivity.
Qed.

Lemma keydownRender_reachable b es :
  r_status (keydownRender (run (init b) es)) = status (run (init b) es).
Proof.
  unfold run. rewrite <-fold_left_rev_right.
  induction (rev es) as [|e l IH]; simpl; [done|]. by apply keydownRender_step.
Qed.

(** X17.  The key handler is registered again whenever the status changes,
    so the status it tests is always the current one: Enter during a call
    does what the call button does (it stops the session), and Enter
    otherwise starts a session from the render of the last status change,
    which is what the button does whenever the configuration has not
    changed since. *)
Theorem enter_key_sees_current_status (b : bool) (es : list Event) (key : jsstring) :
  let s := run (init b) es in
  toLowerCase key = js "enter" →
  r_status (keydownRender s) = status s ∧
  (status s = CONNECTED → step s (KeyDown key) = step s ClickCall) ∧
  (status s ≠ CONNECTED →
     handle (KeyDown key) s = startSession (keydownRender s) false None None s ∧
     (r_config (keydownRender s) = config s →
        step s (KeyDown key) = step s ClickCall)).
Proof.
  intros s Hkey. pose proof (keydownRender_reachable b es) as H. fold s in H.
  split; [done|]. unfold step. cbn [handle]. unfold handleKeyDown.
  rewrite Hkey, bool_decide_eq_true_2 by done. rewrite H. split.
  - intros Hs. by rewrite !bool_decide_eq_true_2.
  - intros Hs. rewrite !bool_decide_eq_false_2 by done. split; [done|].
    intros Hc. do 2 f_equal. unfold currentRender. rewrite <-H, <-Hc.
    by destruct (keydownRender s).
Qed.

Lemma enter_key_sees_current_status_witness :
  r_status (keydownRender connected) = CONNECTED ∧
  step connected (KeyDown (js "ENTER")) = step connected ClickCall.
Proof.
  pose proof (enter_key_sees_current_status true
                [KeyDown (js "Enter"); MicrophoneGranted 0; SessionOpened 1;
                 SessionResolved 1]
                (js "ENTER") eq_refl) as (H1 & H2 & _).
  split; [exact H1|exact (H2 eq_refl)].
Defined.

(** X18.  A change of the mouse mode made while idle does not reach the key
    handler, which is registered on status changes only: the session that
    Enter starts next is created with the mode and the instruction from
    before the change, while the configuration shows the new mode; the
    call button starts it with the new mode and instruction. *)
Theorem enter_connects_with_stale_mode (s : State) :
  status s = IDLE →
  hasGetUserMedia s = true →
  keydownRender s = currentRender s →
  let s1 := step s ClickMouseMode in
  let viaKey := run s1 [KeyDown (js "Enter"); MicrophoneGranted (fresh s)] in
  let viaButton := run s1 [ClickCall; MicrophoneGranted (fresh s)] in
  let enabled := negb (isMouseMode (config s)) in
  isMouseMode (config s1) = enabled ∧
  systemInstruction (config s1) = Some (instructionFor enabled) ∧
  isMouseMode (config viaKey) = enabled ∧
  (∃ x, transports viaKey !! S (fresh s) = Some x ∧
        sessionIsMouseMode x = isMouseMode (config s) ∧
        sessionInstruction x = systemInstruction (config s)) ∧
  (∃ y, transports viaButton !! S (fresh s) = Some y ∧
        sessionIsMouseMode y = enabled ∧
        sessionInstruction y = Some (instructionFor enabled)).
Proof.
  intros Hst Hm Hk s1 viaKey viaButton enabled.
  assert (s1 = commit s (updateConfig (withMode enabled (instructionFor enabled)) s))
    as E1.
  { unfold s1, step. cbn [handle]. unfold toggleMouseMode.
    rewrite applyMouseMode_stale; [done|].
    unfold currentRender, live. cbn [r_status]. rewrite Hst.
    intros [|]; discriminate. }
  assert (status s1 = IDLE ∧ fresh s1 = fresh s ∧ hasGetUserMedia s1 = true ∧
          keydownRender s1 = currentRender s ∧
          config s1 = withMode enabled (instructionFor enabled) (config s))
    as (Hst1 & Hf1 & Hm1 & Hk1 & Hc1).
  { rewrite E1, status_commit, fresh_commit. unfold config at 1, hasGetUserMedia.
    rewrite view_commit, browser_commit. split_and!; try done.
    unfold commit. rewrite bool_decide_eq_true_2 by done. exact Hk. }
  split_and!.
  - by rewrite Hc1.
  - by rewrite Hc1.
  - unfold viaKey, run. cbn [fold_left]. unfold step at 2. cbn [handle].
    unfold handleKeyDown.
    rewrite bool_decide_eq_true_2 by done. rewrite Hk1. cbn [currentRender r_status].
    rewrite Hst, bool_decide_eq_false_2 by done. rewrite <-Hf1.
    destruct (start_then_grant (currentRender s) false None None s1 Hm1)
      as (_ & _ & _ & -> & _).
    by rewrite Hc1.
  - unfold viaKey, run. cbn [fold_left]. unfold step at 2. cbn [handle].
    unfold handleKeyDown.
    rewrite bool_decide_eq_true_2 by done. rewrite Hk1. cbn [currentRender r_status].
    rewrite Hst, bool_decide_eq_false_2 by done. rewrite <-Hf1.
    destruct (start_then_grant (currentRender s) false None None s1 Hm1)
      as (-> & _). eexists. split; [done|]. split; [done|].
    cbn [sessionInstruction orElse currentRender r_config].
    by destruct (systemInstruction (config s)) as [[|]|].
  - unfold viaButton, run. cbn [fold_left]. unfold step at 2. cbn [handle].
    rewrite Hst1, bool_decide_eq_false_2 by done. rewrite <-Hf1.
    destruct (start_then_grant (currentRender s1) false None None s1 Hm1)
      as (-> & _). eexists. split; [done|].
    cbn [sessionIsMouseMode sessionInstruction orElse currentRender r_config].
    rewrite Hc1. cbn [withMode isMouseMode systemInstruction]. split; [done|].
    by destruct enabled.
Qed.

Lemma enter_connects_with_stale_mode_witness :
  let s1 := step (init true) ClickMouseMode in
  let viaKey := run s1 [KeyDown (js "Enter"); MicrophoneGranted 0] in
  isMouseMode (config viaKey) = false ∧
  ∃ x, transports viaKey !! 1 = Some x ∧ sessionIsMouseMode x = true ∧
       sessionInstruction x = Some MOUSE_SYSTEM_INSTRUCTION.
Proof.
  pose proof (enter_connects_with_stale_mode (init true) eq_refl eq_refl eq_refl)
    as H.
  cbv zeta in H. destruct H as (_ & _ & H1 & H2 & _).
  intros s1 viaKey. split; [exact H1|exact H2].
Defined.
